(** * httpsify: the URL normaliser, the backend registry, the request
      dispatcher and the websocket tunnel of [httpsify.go]

    Go strings are byte strings: they are modelled as [string] (a list of
    8-bit [ascii] bytes).  Go's [int] indices are [Z].  The parts of Go's
    [unicode/utf8] and [strings] packages that [httpsify.go] calls are
    transcribed first, then the program itself. *)

From Stdlib Require Import ZArith NArith Ascii String List Bool Lia.
From stdpp Require Import gmap strings list fin_maps.

Local Open Scope Z_scope.

(** ** Bytes and slices *)

Definition byte_val (c : ascii) : Z := Z.of_N (N_of_ascii c).
Definition byte_of (z : Z) : ascii := ascii_of_N (Z.to_N (z mod 256)).

(** [s[i]] for an index inside the string (0 otherwise; every use below is
    guarded by a length test, as in the Go code). *)
Definition at_ (s : string) (i : Z) : Z :=
  if i <? 0 then 0 else
  match String.get (Z.to_nat i) s with
  | Some c => byte_val c
  | None => 0
  end.

Definition len (s : string) : Z := Z.of_nat (String.length s).

(** [s[lo:hi]] and [s[lo:]]. *)
Definition slice (s : string) (lo hi : Z) : string :=
  String.substring (Z.to_nat lo) (Z.to_nat (hi - lo)) s.

Fixpoint drop_bytes (n : nat) (s : string) : string :=
  match n, s with
  | O, _ => s
  | S _, EmptyString => EmptyString
  | S k, String _ r => drop_bytes k r
  end.

Definition slice_from (s : string) (lo : Z) : string := drop_bytes (Z.to_nat lo) s.

(** The line feed, Go's ["\n"]. *)
Definition LF : string := String "010"%char EmptyString.

(** ** Package unicode/utf8 *)

Module utf8.

Definition RuneError : Z := 0xFFFD.
Definition RuneSelf : Z := 0x80.
Definition MaxRune : Z := 0x10FFFF.
Definition UTFMax : Z := 4.
Definition surrogateMin : Z := 0xD800.
Definition surrogateMax : Z := 0xDFFF.

Definition tx : Z := 0x80.
Definition t2 : Z := 0xC0.
Definition t3 : Z := 0xE0.
Definition t4 : Z := 0xF0.
Definition maskx : Z := 0x3F.
Definition mask2 : Z := 0x1F.
Definition mask3 : Z := 0x0F.
Definition mask4 : Z := 0x07.
Definition rune1Max : Z := 0x7F.
Definition rune2Max : Z := 0x7FF.
Definition rune3Max : Z := 0xFFFF.
Definition locb : Z := 0x80.
Definition hicb : Z := 0xBF.

Definition xx : Z := 0xF1.
Definition as_ : Z := 0xF0.
Definition s1 : Z := 0x02.
Definition s2 : Z := 0x13.
Definition s3 : Z := 0x03.
Definition s4 : Z := 0x23.
Definition s5 : Z := 0x34.
Definition s6 : Z := 0x04.
Definition s7 : Z := 0x44.

(** The table [first]: information about the first byte of an encoding. *)
Definition first (b : Z) : Z :=
  if b <? 0x80 then as_
  else if b <? 0xC2 then xx
  else if b <? 0xE0 then s1
  else if b =? 0xE0 then s2
  else if b <? 0xED then s3
  else if b =? 0xED then s4
  else if b <? 0xF0 then s3
  else if b =? 0xF0 then s5
  else if b <? 0xF4 then s6
  else if b =? 0xF4 then s7
  else xx.

(** The table [acceptRanges]: bounds [(lo, hi)] of the second byte. *)
Definition acceptRanges (i : Z) : Z * Z :=
  if i =? 0 then (locb, hicb)
  else if i =? 1 then (0xA0, hicb)
  else if i =? 2 then (locb, 0x9F)
  else if i =? 3 then (0x90, hicb)
  else if i =? 4 then (locb, 0x8F)
  else (0, 0).

Definition DecodeRuneInString (s : string) : Z * Z :=
  let n := len s in
  if n <? 1 then (RuneError, 0) else
  let s0 := at_ s 0 in
  let x := first s0 in
  if as_ <=? x then
    (if x =? as_ then s0 else RuneError, 1)
  else
  let sz := Z.land x 7 in
  let accept := acceptRanges (Z.shiftr x 4) in
  if n <? sz then (RuneError, 1) else
  let b1 := at_ s 1 in
  if (b1 <? fst accept) || (snd accept <? b1) then (RuneError, 1) else
  if sz <=? 2 then
    (Z.lor (Z.shiftl (Z.land s0 mask2) 6) (Z.land b1 maskx), 2)
  else
  let b2 := at_ s 2 in
  if (b2 <? locb) || (hicb <? b2) then (RuneError, 1) else
  if sz <=? 3 then
    (Z.lor (Z.lor (Z.shiftl (Z.land s0 mask3) 12) (Z.shiftl (Z.land b1 maskx) 6))
           (Z.land b2 maskx), 3)
  else
  let b3 := at_ s 3 in
  if (b3 <? locb) || (hicb <? b3) then (RuneError, 1) else
  (Z.lor (Z.lor (Z.lor (Z.shiftl (Z.land s0 mask4) 18) (Z.shiftl (Z.land b1 maskx) 12))
                (Z.shiftl (Z.land b2 maskx) 6))
         (Z.land b3 maskx), 4).

Definition RuneStart (b : Z) : bool := negb (Z.land b 0xC0 =? 0x80).

(** The backwards scan of [DecodeLastRuneInString]:
    [for start--; start >= lim; start-- { if RuneStart(s[start]) { break } }],
    entered with [start] already decremented; [k] counts the positions
    from [start] down to [lim] that are still to be looked at. *)
Fixpoint scanStart (k : nat) (s : string) (start : Z) : Z :=
  match k with
  | O => start
  | S k' =>
      if RuneStart (at_ s start) then start
      else scanStart k' s (start - 1)
  end.

Definition DecodeLastRuneInString (s : string) : Z * Z :=
  let end_ := len s in
  if end_ =? 0 then (RuneError, 0) else
  let start := end_ - 1 in
  let r := at_ s start in
  if r <? RuneSelf then (r, 1) else
  let lim := Z.max 0 (end_ - UTFMax) in
  let start := scanStart (Z.to_nat (start - 1 - lim + 1)) s (start - 1) in
  let start := Z.max 0 start in
  let '(r, size) := DecodeRuneInString (slice s start end_) in
  if negb (start + size =? end_) then (RuneError, 1) else (r, size).

(** [for i, r := range s]: the runes of [s] with their byte offsets.
    [skip] counts the bytes of the rune decoded last that are still ahead. *)
Fixpoint range_from (s : string) (i skip : Z) : list (Z * Z) :=
  match s with
  | EmptyString => []
  | String _ rest =>
      if 0 <? skip then range_from rest (i + 1) (skip - 1)
      else
        let '(r, size) := DecodeRuneInString s in
        (i, r) :: range_from rest (i + 1) (size - 1)
  end.

Definition range (s : string) : list (Z * Z) := range_from s 0 0.

(** [AppendRune] / [Builder.WriteRune]: the UTF-8 encoding of a rune,
    seen as a 32-bit unsigned number as [appendRuneNonASCII] does. *)
Definition EncodeRune (r : Z) : string :=
  let i := r mod 2 ^ 32 in
  if i <=? rune1Max then String (byte_of r) EmptyString
  else if i <=? rune2Max then
    String (byte_of (Z.lor t2 (Z.shiftr r 6)))
      (String (byte_of (Z.lor tx (Z.land r maskx))) EmptyString)
  else
    let enc3 (r : Z) :=
      String (byte_of (Z.lor t3 (Z.shiftr r 12)))
        (String (byte_of (Z.lor tx (Z.land (Z.shiftr r 6) maskx)))
           (String (byte_of (Z.lor tx (Z.land r maskx))) EmptyString)) in
    if (MaxRune <? i) || ((surrogateMin <=? i) && (i <=? surrogateMax)) then enc3 RuneError
    else if i <=? rune3Max then enc3 r
    else
      String (byte_of (Z.lor t4 (Z.shiftr r 18)))
        (String (byte_of (Z.lor tx (Z.land (Z.shiftr r 12) maskx)))
           (String (byte_of (Z.lor tx (Z.land (Z.shiftr r 6) maskx)))
              (String (byte_of (Z.lor tx (Z.land r maskx))) EmptyString))).

End utf8.

(** ** Package unicode *)

Module unicode.

(** [unicode.IsSpace]: the Latin-1 switch, then the [White_Space] table. *)
Definition IsSpace (r : Z) : bool :=
  if r <=? 0xFF then
    (r =? 9) || (r =? 10) || (r =? 11) || (r =? 12) || (r =? 13) || (r =? 32)
    || (r =? 0x85) || (r =? 0xA0)
  else
    (r =? 0x1680) || ((0x2000 <=? r) && (r <=? 0x200a))
    || (r =? 0x2028) || (r =? 0x2029) || (r =? 0x202f) || (r =? 0x205f)
    || (r =? 0x3000).

(** [unicode.ToLower]. ASCII is handled inline by Go; above ASCII Go
    consults its [CaseRanges] table through [To(LowerCase, r)]. That table
    belongs to the Go distribution, so it is an argument here. *)
Definition ToLower (To_LowerCase : Z -> Z) (r : Z) : Z :=
  if r <=? 0x7F then
    (if (65 <=? r) && (r <=? 90) then r + (97 - 65) else r)
  else To_LowerCase r.

End unicode.

(** ** Package strings *)

Module strings.

Definition asciiSpace (c : Z) : bool :=
  (c =? 9) || (c =? 10) || (c =? 11) || (c =? 12) || (c =? 13) || (c =? 32).

Fixpoint HasPrefix (s prefix : string) {struct prefix} : bool :=
  match prefix with
  | EmptyString => true
  | String a p =>
      match s with
      | EmptyString => false
      | String b r => Ascii.eqb b a && HasPrefix r p
      end
  end.

Definition TrimPrefix (s prefix : string) : string :=
  if HasPrefix s prefix then slice_from s (len prefix) else s.

(** [Index]: position of the first occurrence of [substr], or -1. *)
Fixpoint Index (s substr : string) : Z :=
  if HasPrefix s substr then 0 else
  match s with
  | EmptyString => -1
  | String _ r => let i := Index r substr in if i <? 0 then -1 else i + 1
  end.

(** [indexFunc]: [for i, r := range s { if f(r) == truth { return i } }]. *)
Definition indexFunc (s : string) (f : Z -> bool) (truth : bool) : Z :=
  match List.find (fun ir => Bool.eqb (f (snd ir)) truth) (utf8.range s) with
  | Some ir => fst ir
  | None => -1
  end.

(** [lastIndexFunc]:
    [for i := len(s); i > 0; { r, size := DecodeLastRuneInString(s[0:i]); i -= size; ... }].
    The recursion is on [i]; [skip] counts the bytes of the rune decoded
    last that [i] still has to step over. *)
Fixpoint lastIndexFunc_loop (i skip : nat) (s : string) (f : Z -> bool) (truth : bool) : Z :=
  match i with
  | O => -1
  | S j =>
      match skip with
      | S k => lastIndexFunc_loop j k s f truth
      | O =>
          let '(r, size) := utf8.DecodeLastRuneInString (slice s 0 (Z.of_nat i)) in
          if Bool.eqb (f r) truth then Z.of_nat i - size
          else lastIndexFunc_loop j (Nat.pred (Z.to_nat size)) s f truth
      end
  end.

Definition lastIndexFunc (s : string) (f : Z -> bool) (truth : bool) : Z :=
  lastIndexFunc_loop (String.length s) 0 s f truth.

Definition TrimLeftFunc (s : string) (f : Z -> bool) : string :=
  let i := indexFunc s f false in
  if i =? -1 then EmptyString else slice_from s i.

Definition TrimRightFunc (s : string) (f : Z -> bool) : string :=
  let i := lastIndexFunc s f false in
  let i :=
    if (0 <=? i) && (utf8.RuneSelf <=? at_ s i)
    then i + snd (utf8.DecodeRuneInString (slice_from s i))
    else i + 1 in
  slice s 0 i.

Definition TrimFunc (s : string) (f : Z -> bool) : string :=
  TrimRightFunc (TrimLeftFunc s f) f.

(** [TrimSpace], first loop: skip leading ASCII white space; the flag is
    set when a byte [>= RuneSelf] stops the scan. Returns [s[start:]]. *)
Fixpoint TrimSpace_start (s : string) : string * bool :=
  match s with
  | EmptyString => (s, false)
  | String c r =>
      if utf8.RuneSelf <=? byte_val c then (s, true)
      else if negb (asciiSpace (byte_val c)) then (s, false)
      else TrimSpace_start r
  end.

(** [TrimSpace], second loop, on [t = s[start:]]: the recursion is on
    [stop]; returns the final [stop] and the same flag. *)
Fixpoint TrimSpace_stop (stop : nat) (t : string) : Z * bool :=
  match stop with
  | O => (0, false)
  | S j =>
      let c := at_ t (Z.of_nat j) in
      if utf8.RuneSelf <=? c then (Z.of_nat stop, true)
      else if negb (asciiSpace c) then (Z.of_nat stop, false)
      else TrimSpace_stop j t
  end.

Definition TrimSpace (s : string) : string :=
  let '(t, slow) := TrimSpace_start s in
  if slow then TrimFunc t unicode.IsSpace else
  let '(stop, slow) := TrimSpace_stop (String.length t) t in
  if slow then TrimRightFunc (slice t 0 stop) unicode.IsSpace
  else slice t 0 stop.

(** [TrimRight] and [TrimLeft] for a cutset of ASCII bytes, the only kind
    this program passes (["/"]): Go then trims byte by byte
    ([trimRightByte], [trimRightASCII], [trimLeftByte], [trimLeftASCII]). *)
Fixpoint inSet (c : ascii) (cutset : string) : bool :=
  match cutset with
  | EmptyString => false
  | String a r => Ascii.eqb c a || inSet c r
  end.

Fixpoint TrimRight (s cutset : string) : string :=
  match s with
  | EmptyString => EmptyString
  | String c r =>
      match TrimRight r cutset with
      | EmptyString => if inSet c cutset then EmptyString else String c EmptyString
      | r' => String c r'
      end
  end.

Fixpoint TrimLeft (s cutset : string) : string :=
  match s with
  | EmptyString => EmptyString
  | String c r => if inSet c cutset then TrimLeft r cutset else s
  end.

(** [ToLower]. *)
Fixpoint isASCII (s : string) : bool :=
  match s with
  | EmptyString => true
  | String c r => (byte_val c <? utf8.RuneSelf) && isASCII r
  end.

Fixpoint lowerASCII (s : string) : string :=
  match s with
  | EmptyString => EmptyString
  | String c r =>
      let b := byte_val c in
      String (if (65 <=? b) && (b <=? 90) then byte_of (b + (97 - 65)) else c)
             (lowerASCII r)
  end.

(** [Map]: each rune of [s] is decoded, mapped and encoded again, a
    negative result dropping the rune. Go copies the longest prefix that
    the mapping leaves alone; that prefix is made of valid encodings, which
    decoding and encoding give back unchanged, and an invalid byte always
    counts as changed (it becomes the encoding of [RuneError]). *)
Definition Map (mapping : Z -> Z) (s : string) : string :=
  List.fold_right
    (fun ir acc =>
       let r := mapping (snd ir) in
       (if 0 <=? r then utf8.EncodeRune r else EmptyString) +:+ acc)
    EmptyString (utf8.range s).

Definition ToLower (To_LowerCase : Z -> Z) (s : string) : string :=
  if isASCII s then lowerASCII s
  else Map (unicode.ToLower To_LowerCase) s.

(** [Count] for a non-empty [substr]: the occurrences met from left to
    right, each one found letting the scan jump over its bytes. *)
Fixpoint Count_from (s substr : string) (skip : Z) : Z :=
  match s with
  | EmptyString => 0
  | String _ rest =>
      if 0 <? skip then Count_from rest substr (skip - 1)
      else if HasPrefix s substr then 1 + Count_from rest substr (len substr - 1)
      else Count_from rest substr 0
  end.

Definition Count (s substr : string) : Z := Count_from s substr 0.

(** [genSplit] for a non-empty separator and [sepSave = 0]. [cut] is the
    loop body: [m := Index(s, sep)], then [s[:m]] and [s[m+len(sep):]].
    The loop [for i < n] (with [n] already decremented) runs at most [n]
    times: the recursion is on the number of rounds left. *)
Definition cut (s sep : string) : option (string * string) :=
  let m := Index s sep in
  if m <? 0 then None
  else Some (slice s 0 m, slice_from s (m + len sep)).

Fixpoint genSplit_loop (rounds : nat) (s sep : string) : list string :=
  match rounds with
  | O => [s]
  | S k =>
      match cut s sep with
      | None => [s]
      | Some (a, rest) => a :: genSplit_loop k rest sep
      end
  end.

(** [SplitN(s, sep, n)] with [sep] non-empty, which every call of this
    program satisfies ([","], ["->"], [":"]). *)
Definition SplitN (s sep : string) (n : Z) : list string :=
  if n =? 0 then [] else
  let n := if n <? 0 then Count s sep + 1 else n in
  let n := if len s + 1 <? n then len s + 1 else n in
  genSplit_loop (Z.to_nat (n - 1)) s sep.

Definition Split (s sep : string) : list string := SplitN s sep (-1).

End strings.

(** * The program *)

(** ** [fixUrl] *)

Definition fixUrl (u : string) : string :=
  let u := strings.TrimPrefix (strings.TrimSpace u) "https://" in
  let u := if strings.Index u ":" =? 0 then "localhost" +:+ u else u in
  let u :=
    if negb (strings.HasPrefix u "ws://") && negb (strings.HasPrefix u "http://")
    then "http://" +:+ u else u in
  let u := strings.TrimRight u "/" in
  u.

(** ** The globals and the loop of [main] that fills them *)

Record Globals := mkGlobals {
  domain_backend : gmap string string;
  whitelisted : list string
}.

Definition globals0 : Globals :=
  {| domain_backend := ∅; whitelisted := [] |}.

(** One round of the loop over the comma-separated zones of [-domains].
    [None] stands for the run-time panic of an index out of range at
    [parts[1]] or [parts[0]]. *)
Definition zone_step (backend : string) (g : Globals) (zone : string) : option Globals :=
  let parts := strings.SplitN zone "->" 2 in
  let parts := if (length parts <? 2)%nat then parts ++ [backend] else parts in
  match parts !! 1%nat with
  | None => None
  | Some p1 =>
      let parts := <[1%nat := fixUrl p1]> parts in
      match parts !! 0%nat, parts !! 1%nat with
      | Some p0, Some p1 =>
          Some {| domain_backend := <[p0 := p1]> (domain_backend g);
                  whitelisted := whitelisted g ++ [p0] |}
      | _, _ => None
      end
  end.

Fixpoint zone_loop (backend : string) (g : Globals) (zones : list string) : option Globals :=
  match zones with
  | [] => Some g
  | zone :: rest =>
      match zone_step backend g zone with
      | None => None
      | Some g' => zone_loop backend g' rest
      end
  end.

(** What [main] has done when it reaches the server set-up. *)
Inductive Startup :=
| Usage
| Panicked
| Configured (g : Globals).

Definition main (domains backend : string) : Startup :=
  if String.eqb domains "" then Usage
  else
    match zone_loop backend globals0 (strings.Split domains ",") with
    | None => Panicked
    | Some g => Configured g
    end.

(** ** The request, as [net/http] hands it to the handler *)

Module url.

(** The fields of [url.URL] that [RequestURI] and the tunnel read. *)
Record URL := mkURL {
  Scheme : string;
  Opaque : string;
  Host : string;
  Path : string;
  RawPath : string;
  ForceQuery : bool;
  RawQuery : string
}.

End url.

Module http.

Definition StatusNotImplemented : Z := 501.
Definition StatusInternalServerError : Z := 500.

(** [http.Header] is [map[string][]string]. *)
Abbreviation HeaderMap := (gmap string (list string)).

(** [h[key]]: a missing key reads as the nil slice. *)
Definition values (h : HeaderMap) (key : string) : list string :=
  default [] (h !! key).

(** [Header.Get] for a key that is already in canonical form, as
    ["Upgrade"] is: the first value stored under it, or [""]. *)
Definition Get (h : HeaderMap) (key : string) : string :=
  match values h key with
  | [] => ""
  | v :: _ => v
  end.

(** [URL] is a pointer in Go: [None] is nil. [Body] stands for the bytes
    that the body stream delivers. *)
Record Request := mkRequest {
  Method : string;
  URL : option url.URL;
  Proto : string;
  Header : HeaderMap;
  Body : string;
  Host : string;
  RemoteAddr : string
}.

Definition set_Host (h : string) (r : Request) : Request :=
  mkRequest (Method r) (URL r) (Proto r) (Header r) (Body r) h (RemoteAddr r).

Definition set_URL (u : option url.URL) (r : Request) : Request :=
  mkRequest (Method r) u (Proto r) (Header r) (Body r) (Host r) (RemoteAddr r).

Definition set_Header (h : HeaderMap) (r : Request) : Request :=
  mkRequest (Method r) (URL r) (Proto r) h (Body r) (Host r) (RemoteAddr r).

(** What [http.Error(w, msg, code)] sends: the status and the message
    followed by a newline, as plain text. *)
Record Response := mkResponse {
  StatusCode : Z;
  ContentType : string;
  ResponseBody : string
}.

Definition Error (msg : string) (code : Z) : Response :=
  {| StatusCode := code;
     ContentType := "text/plain; charset=utf-8";
     ResponseBody := msg +:+ LF |}.

End http.

(** [httputil.ReverseProxy], reduced to the field the handler touches.
    A director rewrites the outbound request in place; [None] stands for a
    director that fails on a nil pointer instead of returning. *)
Record ReverseProxy := mkReverseProxy {
  Director : http.Request -> option http.Request
}.

(** The library functions whose code is Go's, not this program's. *)
Class GoLib := {
  (** [unicode.To(unicode.LowerCase, r)] above ASCII: the case table *)
  To_LowerCase : Z -> Z;
  (** [url.Parse], the error dropped as the handler does: [None] is nil *)
  url_Parse : string -> option url.URL;
  (** the method [EscapedPath] of [url.URL] *)
  url_EscapedPath : url.URL -> string;
  (** what the default director of [httputil] does to the outbound request
      for a target and a request URL that are not nil *)
  rewriteRequestURL : url.URL -> http.Request -> http.Request
}.

Section Gateway.

Context `{lib : GoLib}.

(** The method [RequestURI] of [url.URL]. *)
Definition RequestURI (u : url.URL) : string :=
  let result := url.Opaque u in
  let result :=
    if String.eqb result "" then
      let result := url_EscapedPath u in
      if String.eqb result "" then "/" else result
    else
      if strings.HasPrefix result "//" then url.Scheme u +:+ ":" +:+ result
      else result in
  if url.ForceQuery u || negb (String.eqb (url.RawQuery u) "")
  then result +:+ "?" +:+ url.RawQuery u
  else result.

(** What the handler hands the request over to. *)
Inductive Route :=
| Replied (resp : http.Response)
| Tunnel (u : option url.URL)
| Forward (u : option url.URL) (proxy : ReverseProxy)
| Panic.

(** [strings.SplitN(s, ":", 2)[0]] *)
Definition before_colon (s : string) : option string :=
  strings.SplitN s ":" 2 !! 0%nat.

(** The text given to [url.Parse]. *)
Definition upstream (target : string) (ru : url.URL) : string :=
  target +:+ "/" +:+ strings.TrimLeft (RequestURI ru) "/".

(** [httputil.NewSingleHostReverseProxy]: a proxy whose director rewrites
    the URL of the outbound request after the target. The director reads the
    fields of the target and writes those of the request URL, so it fails on
    a nil pointer when either is nil; building the proxy does not read them. *)
Definition NewSingleHostReverseProxy (target : option url.URL) : ReverseProxy :=
  mkReverseProxy
    (fun req =>
       match target, http.URL req with
       | Some t, Some _ => Some (rewriteRequestURL t req)
       | _, _ => None
       end).

(** The [Director] installed on the proxy: the default one, then the
    two assignments, which a failure of the default one leaves undone. *)
Definition director (defaultDirector : http.Request -> option http.Request)
    (r : http.Request) (u : option url.URL) (req : http.Request) : option http.Request :=
  match defaultDirector req with
  | None => None
  | Some req =>
      let req := http.set_Host (http.Host r) req in
      let req := http.set_URL u req in
      Some req
  end.

(** The handler: the request is mutated in place, so its final state is
    returned next to the route taken. *)
Definition handler (g : Globals) (r : http.Request) : http.Request * Route :=
  match before_colon (http.Host r) with
  | None => (r, Panic)
  | Some h =>
  let r := http.set_Host h r in
  match domain_backend g !! http.Host r with
  | None =>
      (r, Replied (http.Error (http.Host r +:+ ": not found") http.StatusNotImplemented))
  | Some _ =>
  let r := http.set_Header (<["X-Forwarded-Proto" := ["https"]]> (http.Header r)) r in
  match before_colon (http.RemoteAddr r) with
  | None => (r, Panic)
  | Some ip =>
  let r := http.set_Header
             (<["X-Forwarded-For" := http.values (http.Header r) "X-Forwarded-For" ++ [ip]]>
                (http.Header r)) r in
  match http.URL r with
  | None => (r, Panic)
  | Some ru =>
  let u := url_Parse (upstream (default "" (domain_backend g !! http.Host r)) ru) in
  if String.eqb (strings.ToLower To_LowerCase (http.Get (http.Header r) "Upgrade")) "websocket"
  then (r, Tunnel u)
  else
    let proxy := NewSingleHostReverseProxy u in
    let defaultDirector := Director proxy in
    let proxy := mkReverseProxy (director defaultDirector r u) in
    (r, Forward u proxy)
  end end end end.

End Gateway.

(** ** The websocket tunnel *)

(** A network connection, named by a number. *)
Inductive Conn := conn (id : nat).

(** What the handler's [http.ResponseWriter] offers: [None] when it is not
    an [http.Hijacker], otherwise what [Hijack()] returns, the connection or
    the text of the error. *)
Record ResponseWriter := mkResponseWriter {
  Hijacker : option (Conn + string)
}.

(** What the surroundings answer: [net.Dial], the connection or the text of
    the error, and the order in which [range] walks a header map, which Go
    leaves unspecified. *)
Record World := mkWorld {
  net_Dial : string -> string -> Conn + string;
  range_Header : http.HeaderMap -> list (string * list string)
}.

(** The readers given to [io.MultiReader]. *)
Inductive Reader :=
| StringReader (s : string)
| BodyReader (body : string)
| ConnReader (c : Conn).

(** What the tunnel does, in order. [GoCopy] is the copy started with [go],
    [Copy] the one the handler waits for, [Close] a deferred close. *)
Inductive Event :=
| Dial (network addr : string)
| Respond (resp : http.Response)
| Hijack
| GoCopy (dst : Conn) (src : list Reader)
| Copy (dst src : Conn)
| Close (c : Conn)
| NilPanic.

Section Tunnel.

Context `{lib : GoLib}.

(** The two nested loops over the header map: one line per value. *)
Definition header_lines (message : string) (hs : list (string * list string)) : string :=
  fold_left
    (fun message kv =>
       fold_left (fun message v => message +:+ fst kv +:+ ": " +:+ v +:+ LF)
                 (snd kv) message)
    hs message.

Definition replay_message (W : World) (r : http.Request) (ru : url.URL) : string :=
  let message :=
    http.Method r +:+ " " +:+ RequestURI ru +:+ " " +:+ http.Proto r +:+ LF in
  let message := message +:+ "Host: " +:+ http.Host r +:+ LF in
  let message := header_lines message (range_Header W (http.Header r)) in
  let message := message +:+ LF in
  message.

Definition NewWebsocketReverseProxy (W : World) (u : option url.URL)
    (w : ResponseWriter) (r : http.Request) : list Event :=
  match u with
  | None => [NilPanic]
  | Some u =>
  match net_Dial W "tcp" (url.Host u) with
  | inr err =>
      [Dial "tcp" (url.Host u);
       Respond (http.Error err http.StatusInternalServerError)]
  | inl backConn =>
  match Hijacker w with
  | None =>
      [Dial "tcp" (url.Host u);
       Respond (http.Error "webserver doesn't support hijacking"
                  http.StatusInternalServerError);
       Close backConn]
  | Some (inr err) =>
      [Dial "tcp" (url.Host u); Hijack;
       Respond (http.Error err http.StatusInternalServerError);
       Close backConn]
  | Some (inl clientConn) =>
  match http.URL r with
  | None =>
      [Dial "tcp" (url.Host u); Hijack; NilPanic; Close clientConn; Close backConn]
  | Some ru =>
      let message := replay_message W r ru in
      [Dial "tcp" (url.Host u); Hijack;
       GoCopy backConn [StringReader message; BodyReader (http.Body r); ConnReader clientConn];
       Copy clientConn backConn;
       Close clientConn; Close backConn]
  end end end end.

End Tunnel.

(** ** A small instance of the library, for the examples

    These are stand-ins with the right types, not Go's functions: a parser
    for texts of the form [scheme://host/path?query], the stored path as
    escaped path, a one-entry case table (the Kelvin sign) and a default
    director that points the request at the target. *)

Definition demo_Parse (s : string) : option url.URL :=
  match strings.cut s "://" with
  | None => None
  | Some (scheme, rest) =>
      let hp :=
        match strings.cut rest "/" with
        | None => (rest, "")
        | Some (h, p) => (h, "/" +:+ p)
        end in
      let pq :=
        match strings.cut (snd hp) "?" with
        | None => (snd hp, "")
        | Some (p, q) => (p, q)
        end in
      Some (url.mkURL scheme "" (fst hp) (fst pq) "" false (snd pq))
  end.

Definition demoLib : GoLib :=
  {| To_LowerCase := fun r => if r =? 0x212A then 0x6B else r;
     url_Parse := demo_Parse;
     url_EscapedPath := url.Path;
     rewriteRequestURL := fun target req =>
       http.set_Host "default.invalid" (http.set_URL (Some target) req) |}.

Definition demoWorld (dial : Conn + string) : World :=
  {| net_Dial := fun _ _ => dial;
     range_Header := fun h => map_to_list h |}.

Definition demoGlobals : Globals :=
  match main "site.com->:8080/,chat.site.com->ws://10.0.0.7:9000" ":80" with
  | Configured g => g
  | _ => globals0
  end.

Definition demoRequest (host remote uri upgrade : string) : http.Request :=
  {| http.Method := "GET";
     http.URL := demo_Parse ("http://origin" +:+ uri);
     http.Proto := "HTTP/1.1";
     http.Header := <["Upgrade" := [upgrade]]> (<["X-Forwarded-For" := ["198.51.100.4"]]> ∅);
     http.Body := "";
     http.Host := host;
     http.RemoteAddr := remote |}.

(** * Notions used in the statements *)

(** The first three steps of [fixUrl]: the text that its final [TrimRight]
    receives. *)
Definition fixUrl_schemed (u : string) : string :=
  let u := strings.TrimPrefix (strings.TrimSpace u) "https://" in
  let u := if strings.Index u ":" =? 0 then "localhost" +:+ u else u in
  if negb (strings.HasPrefix u "ws://") && negb (strings.HasPrefix u "http://")
  then "http://" +:+ u else u.

(** A zone declaration as the specification reads it: [domain->target],
    split at the first arrow, or a bare [domain] that takes the default. *)
Definition zone_decl (backend zone : string) : string * string :=
  match strings.cut zone "->" with
  | Some (d, t) => (d, t)
  | None => (zone, backend)
  end.

(** Recording one declaration: the target is normalised, the domain is
    (re)bound to it and appended to the white list. *)
Definition declare (g : Globals) (dt : string * string) : Globals :=
  {| domain_backend := <[fst dt := fixUrl (snd dt)]> (domain_backend g);
     whitelisted := whitelisted g ++ [fst dt] |}.

(** Every stored target is an output of [fixUrl]. *)
Definition normalised (t : string) : Prop := exists s, t = fixUrl s.

(** The text before the first colon: what the handler keeps of [r.Host]
    and of [r.RemoteAddr]. *)
Definition port_stripped (s : string) : string :=
  match strings.cut s ":" with
  | None => s
  | Some (a, _) => a
  end.

(** Equality up to the case of the ASCII letters, the way the
    specification words the test on the [Upgrade] header: both bytes are
    folded to lower case and compared. *)
Definition fold_case (b : Z) : Z :=
  if (65 <=? b) && (b <=? 90) then b + 32 else b.

Fixpoint eq_nocase (a b : string) : bool :=
  match a, b with
  | EmptyString, EmptyString => true
  | String x a', String y b' =>
      (fold_case (byte_val x) =? fold_case (byte_val y)) && eq_nocase a' b'
  | _, _ => false
  end.

(** The header map after the two assignments of the handler. *)
Definition forwarded (hdr : http.HeaderMap) (ip : string) : http.HeaderMap :=
  <["X-Forwarded-For" := http.values hdr "X-Forwarded-For" ++ [ip]]>
    (<["X-Forwarded-Proto" := ["https"]]> hdr).

(** The request as the handler leaves it when the host is registered. *)
Definition rewritten (r : http.Request) : http.Request :=
  http.set_Header (forwarded (http.Header r) (port_stripped (http.RemoteAddr r)))
    (http.set_Host (port_stripped (http.Host r)) r).

(** [k] slashes in a row. *)
Fixpoint slashes (k : nat) : string :=
  match k with
  | O => ""
  | S k' => String "/" (slashes k')
  end.

(** The header lines of the replayed block, one per value, in the order in
    which the map is walked, and their concatenation. *)
Definition header_line (k v : string) : string := k +:+ ": " +:+ v +:+ LF.

Definition lines_of (hs : list (string * list string)) : list string :=
  flat_map (fun kv => map (header_line (fst kv)) (snd kv)) hs.

Fixpoint concat_all (ls : list string) : string :=
  match ls with
  | [] => ""
  | l :: ls' => l +:+ concat_all ls'
  end.

(** The requests of the examples: an upgrade request for the tunnelled
    host, a page request with a doubled leading slash, a request for a host
    that is not registered; and a backend that refuses connections. *)
Definition chat_request : http.Request :=
  demoRequest "chat.site.com:443" "203.0.113.9:51234" "/chat?room=1" "WebSocket".

Definition chat_url : url.URL :=
  url.mkURL "http" "" "origin" "/chat" "" false "room=1".

Definition page_request : http.Request :=
  demoRequest "site.com:443" "203.0.113.9:51234" "//foo?x=1" "".

Definition page_url : url.URL :=
  url.mkURL "http" "" "origin" "//foo" "" false "x=1".

Definition stray_request : http.Request :=
  demoRequest "evil.test:443" "203.0.113.9:51234" "/foo?x=1" "websocket".

Definition refusing : World :=
  demoWorld (inr "dial tcp 10.0.0.7:9000: connect: connection refused").

(** The handler as a whole: the route of [handler] followed to its end.
    The tunnel runs on the request as the handler has rewritten it. On the
    forward route [proxy.ServeHTTP] first runs the director of the proxy on
    its copy of the request: a director that fails takes the handler down
    with it, and otherwise [Proxied] holds the outbound request as the
    director leaves it, which Go's proxy then sends through its transport
    (the round trip and the answer written to the client are Go's and are
    not part of this outcome). *)
Inductive Outcome :=
| Answered (resp : http.Response)
| Tunnelled (trace : list Event)
| Proxied (outreq : http.Request)
| Crashed.

Definition serve `{lib : GoLib} (W : World) (g : Globals) (w : ResponseWriter)
    (r : http.Request) : http.Request * Outcome :=
  match handler g r with
  | (r', Replied resp) => (r', Answered resp)
  | (r', Tunnel u) => (r', Tunnelled (NewWebsocketReverseProxy W u w r'))
  | (r', Forward u proxy) =>
      match Director proxy r' with
      | Some outreq => (r', Proxied outreq)
      | None => (r', Crashed)
      end
  | (r', Panic) => (r', Crashed)
  end.

(** A run of the handler that ends in a failure on a nil pointer, in the
    handler itself, in the director or in the tunnel. *)
Definition crashed (o : Outcome) : Prop :=
  match o with
  | Crashed => True
  | Tunnelled trace => NilPanic ∈ trace
  | _ => False
  end.

(** A text that opens with one of the two schemes [fixUrl] accepts. *)
Definition has_scheme (s : string) : bool :=
  strings.HasPrefix s "http://" || strings.HasPrefix s "ws://".

(** * Properties *)

(** ** Byte strings *)

Lemma append_cons (a : ascii) (s t : string) : String a s +:+ t = String a (s +:+ t).
Proof. reflexivity. Qed.

Lemma append_empty_l (t : string) : "" +:+ t = t.
Proof. reflexivity. Qed.

Lemma append_empty_r (s : string) : s +:+ "" = s.
Proof. induction s as [|a s IH]; [reflexivity|]. rewrite append_cons, IH. reflexivity. Qed.

Lemma append_assoc (s t v : string) : (s +:+ t) +:+ v = s +:+ (t +:+ v).
Proof.
  induction s as [|a s IH]; [reflexivity|].
  rewrite !append_cons, IH. reflexivity.
Qed.

Lemma append_eq_empty (s t : string) : s +:+ t = "" -> s = "" /\ t = "".
Proof.
  destruct s; [rewrite append_empty_l; intros ->; split; reflexivity|].
  rewrite append_cons; discriminate.
Qed.

Lemma ascii_eqb_true (a b : ascii) : Ascii.eqb a b = true <-> a = b.
Proof. apply Ascii.eqb_eq. Qed.

Lemma HasPrefix_app (p s : string) : strings.HasPrefix (p +:+ s) p = true.
Proof.
  induction p as [|a p IH]; [reflexivity|].
  rewrite append_cons. simpl. rewrite Ascii.eqb_refl, IH. reflexivity.
Qed.

Lemma HasPrefix_inv (s p : string) :
  strings.HasPrefix s p = true -> exists r, s = p +:+ r.
Proof.
  revert s. induction p as [|a p IH]; intros s H.
  - exists s. reflexivity.
  - destruct s as [|b s]; [discriminate|]. simpl in H.
    apply andb_true_iff in H as [Hab Hp]. apply Ascii.eqb_eq in Hab as ->.
    destruct (IH _ Hp) as [r ->]. exists r. reflexivity.
Qed.

Lemma Index_zero (s substr : string) :
  strings.Index s substr = 0 <-> strings.HasPrefix s substr = true.
Proof.
  destruct s as [|c s]; simpl.
  - destruct (strings.HasPrefix "" substr); split; intros; congruence || lia.
  - destruct (strings.HasPrefix (String c s) substr); [split; reflexivity|].
    split; [|discriminate].
    destruct (strings.Index s substr <? 0) eqn:E; [lia|]. apply Z.ltb_ge in E. lia.
Qed.

Lemma TrimRight_cons (c : ascii) (r cutset : string) :
  strings.TrimRight (String c r) cutset =
    match strings.TrimRight r cutset with
    | EmptyString => if strings.inSet c cutset then "" else String c ""
    | r' => String c r'
    end.
Proof. reflexivity. Qed.

Lemma TrimRight_cons_notin (c : ascii) (r cutset : string) :
  strings.inSet c cutset = false ->
  strings.TrimRight (String c r) cutset = String c (strings.TrimRight r cutset).
Proof.
  intros H. rewrite TrimRight_cons, H. destruct (strings.TrimRight r cutset); reflexivity.
Qed.

(** What [TrimRight] returns never ends with a byte of the cutset. *)
Lemma TrimRight_no_suffix (cutset s t : string) (c : ascii) :
  strings.inSet c cutset = true -> strings.TrimRight s cutset <> t +:+ String c "".
Proof.
  intros Hc. revert t. induction s as [|a s IH]; intros t H.
  - simpl in H. destruct t; rewrite ?append_cons in H; discriminate.
  - rewrite TrimRight_cons in H.
    destruct (strings.TrimRight s cutset) as [|b r'] eqn:E.
    + destruct (strings.inSet a cutset) eqn:Ea.
      * destruct t; rewrite ?append_cons in H; discriminate.
      * destruct t as [|d t]; rewrite ?append_cons, ?append_empty_l in H.
        -- injection H as ->. congruence.
        -- injection H as _ H. destruct t; rewrite ?append_cons in H; discriminate.
    + destruct t as [|d t]; rewrite ?append_cons, ?append_empty_l in H.
      * discriminate.
      * injection H as _ H. exact (IH t H).
Qed.

Lemma TrimRight_idem (s cutset : string) :
  strings.TrimRight (strings.TrimRight s cutset) cutset = strings.TrimRight s cutset.
Proof.
  induction s as [|a s IH]; [reflexivity|].
  rewrite TrimRight_cons. destruct (strings.TrimRight s cutset) as [|b r'] eqn:E.
  - destruct (strings.inSet a cutset) eqn:Ea; [reflexivity|].
    rewrite TrimRight_cons. simpl. rewrite Ea. reflexivity.
  - rewrite TrimRight_cons, IH. reflexivity.
Qed.

(** ** [fixUrl] *)

Lemma TrimRight_slash_cons (r : string) :
  strings.TrimRight (String "/"%char r) "/" =
    match strings.TrimRight r "/" with
    | EmptyString => ""
    | r' => String "/"%char r'
    end.
Proof. rewrite TrimRight_cons. reflexivity. Qed.

Lemma fixUrl_unfold (s : string) : fixUrl s = strings.TrimRight (fixUrl_schemed s) "/".
Proof. reflexivity. Qed.

Lemma fixUrl_schemed_prefix (s : string) :
  exists rest, fixUrl_schemed s = "http://" +:+ rest \/ fixUrl_schemed s = "ws://" +:+ rest.
Proof.
  unfold fixUrl_schemed.
  set (u := if strings.Index _ ":" =? 0 then _ else _).
  destruct (strings.HasPrefix u "ws://") eqn:Hws;
    destruct (strings.HasPrefix u "http://") eqn:Hhttp; cbn [negb andb].
  - destruct (HasPrefix_inv _ _ Hws) as [rest ->]. exists rest. right. reflexivity.
  - destruct (HasPrefix_inv _ _ Hws) as [rest ->]. exists rest. right. reflexivity.
  - destruct (HasPrefix_inv _ _ Hhttp) as [rest ->]. exists rest. left. reflexivity.
  - exists u. left. reflexivity.
Qed.

Lemma TrimRight_http (rest : string) :
  strings.TrimRight ("http://" +:+ rest) "/" =
    match strings.TrimRight rest "/" with
    | EmptyString => "http:"
    | r' => "http://" +:+ r'
    end.
Proof.
  rewrite !append_cons, append_empty_l.
  rewrite !TrimRight_cons_notin by reflexivity.
  rewrite !TrimRight_slash_cons.
  destruct (strings.TrimRight rest "/"); reflexivity.
Qed.

Lemma TrimRight_ws (rest : string) :
  strings.TrimRight ("ws://" +:+ rest) "/" =
    match strings.TrimRight rest "/" with
    | EmptyString => "ws:"
    | r' => "ws://" +:+ r'
    end.
Proof.
  rewrite !append_cons, append_empty_l.
  rewrite !TrimRight_cons_notin by reflexivity.
  rewrite !TrimRight_slash_cons.
  destruct (strings.TrimRight rest "/"); reflexivity.
Qed.

(** The four shapes of a normalised target. *)
Lemma fixUrl_shape (s : string) :
  fixUrl s = "http:" \/ fixUrl s = "ws:" \/
  exists a r, fixUrl s = "http://" +:+ String a r \/ fixUrl s = "ws://" +:+ String a r.
Proof.
  rewrite fixUrl_unfold. destruct (fixUrl_schemed_prefix s) as [rest [-> | ->]].
  - rewrite TrimRight_http. destruct (strings.TrimRight rest "/") as [|a r]; eauto 6.
  - rewrite TrimRight_ws. destruct (strings.TrimRight rest "/") as [|a r]; eauto 6.
Qed.

Lemma fixUrl_not_https (s : string) : strings.HasPrefix (fixUrl s) "https://" = false.
Proof.
  destruct (fixUrl_shape s) as [-> | [-> | (a & r & [-> | ->])]]; reflexivity.
Qed.

Lemma fixUrl_not_colon (s : string) : strings.HasPrefix (fixUrl s) ":" = false.
Proof.
  destruct (fixUrl_shape s) as [-> | [-> | (a & r & [-> | ->])]]; reflexivity.
Qed.

Lemma fixUrl_no_trailing_slash (s t : string) : fixUrl s <> t +:+ "/".
Proof. rewrite fixUrl_unfold. apply TrimRight_no_suffix. reflexivity. Qed.

Lemma fixUrl_TrimRight (s : string) : strings.TrimRight (fixUrl s) "/" = fixUrl s.
Proof. rewrite fixUrl_unfold. apply TrimRight_idem. Qed.

(** A fixed point of [fixUrl]: a result that opens with a full scheme and
    that [TrimSpace] leaves alone is normalised to itself. *)
Lemma fixUrl_fixed_point (s : string) :
  strings.TrimSpace (fixUrl s) = fixUrl s ->
  strings.HasPrefix (fixUrl s) "http://" = true \/ strings.HasPrefix (fixUrl s) "ws://" = true ->
  fixUrl (fixUrl s) = fixUrl s.
Proof.
  intros Hsp Hscheme.
  rewrite (fixUrl_unfold (fixUrl s)). unfold fixUrl_schemed.
  rewrite Hsp. unfold strings.TrimPrefix. rewrite fixUrl_not_https.
  destruct (strings.Index (fixUrl s) ":" =? 0) eqn:Hi.
  { apply Z.eqb_eq, Index_zero in Hi. rewrite fixUrl_not_colon in Hi. discriminate. }
  assert (negb (strings.HasPrefix (fixUrl s) "ws://")
          && negb (strings.HasPrefix (fixUrl s) "http://") = false) as ->.
  { destruct Hscheme as [-> | ->]; [apply andb_false_r | reflexivity]. }
  apply fixUrl_TrimRight.
Qed.

(** ** The registry *)

Lemma cut_empty (sep : string) : sep <> "" -> strings.cut "" sep = None.
Proof. destruct sep; [congruence | reflexivity]. Qed.

(** [SplitN(s, sep, 2)]: one piece when [sep] does not occur, otherwise
    the text before its first occurrence and all the text after it. *)
Lemma SplitN_2 (s sep : string) :
  sep <> "" ->
  strings.SplitN s sep 2 =
    match strings.cut s sep with
    | None => [s]
    | Some (a, rest) => [a; rest]
    end.
Proof.
  intros Hsep. unfold strings.SplitN. cbn [Z.eqb Z.ltb Z.compare].
  destruct s as [|c s].
  - rewrite cut_empty by assumption. reflexivity.
  - replace (len (String c s) + 1 <? 2) with false.
    + change (Z.to_nat (2 - 1)) with 1%nat. cbn [strings.genSplit_loop].
      destruct (strings.cut (String c s) sep) as [[a rest]|]; reflexivity.
    + symmetry. apply Z.ltb_ge. unfold len. simpl String.length. lia.
Qed.

Lemma zone_step_declare (backend : string) (g : Globals) (zone : string) :
  zone_step backend g zone = Some (declare g (zone_decl backend zone)).
Proof.
  unfold zone_step, zone_decl. rewrite SplitN_2 by discriminate.
  destruct (strings.cut zone "->") as [[d t]|]; reflexivity.
Qed.

Lemma zone_loop_declare (backend : string) (zones : list string) (g : Globals) :
  zone_loop backend g zones = Some (fold_left declare (map (zone_decl backend) zones) g).
Proof.
  revert g. induction zones as [|z zones IH]; intros g; [reflexivity|].
  simpl. rewrite zone_step_declare. apply IH.
Qed.

Lemma declare_all_whitelisted (ds : list (string * string)) (g : Globals) :
  whitelisted (fold_left declare ds g) = whitelisted g ++ map fst ds.
Proof.
  revert g. induction ds as [|dt ds IH]; intros g; simpl.
  - rewrite app_nil_r. reflexivity.
  - rewrite IH. simpl. rewrite <- app_assoc. reflexivity.
Qed.

Lemma declare_all_other (ds : list (string * string)) (g : Globals) (d : string) :
  d ∉ map fst ds ->
  domain_backend (fold_left declare ds g) !! d = domain_backend g !! d.
Proof.
  revert g. induction ds as [|[d' t'] ds IH]; intros g Hd; [reflexivity|].
  simpl in *. apply not_elem_of_cons in Hd as [Hne Hd].
  rewrite IH by assumption. simpl. apply lookup_insert_ne. congruence.
Qed.

(** Last write wins. *)
Lemma declare_all_last (pre post : list (string * string)) (g : Globals) (d t : string) :
  d ∉ map fst post ->
  domain_backend (fold_left declare (pre ++ (d, t) :: post) g) !! d = Some (fixUrl t).
Proof.
  intros Hd. rewrite fold_left_app. simpl.
  rewrite declare_all_other by assumption. simpl. apply lookup_insert_eq.
Qed.

Lemma declare_all_normalised (ds : list (string * string)) (g : Globals) :
  map_Forall (fun _ t => normalised t) (domain_backend g) ->
  map_Forall (fun _ t => normalised t) (domain_backend (fold_left declare ds g)).
Proof.
  revert g. induction ds as [|[d t] ds IH]; intros g Hg; [exact Hg|].
  simpl. apply IH. simpl. apply map_Forall_insert_2; [exists t; reflexivity | exact Hg].
Qed.

Lemma main_configured (domains backend : string) :
  domains <> "" ->
  main domains backend =
    Configured (fold_left declare (map (zone_decl backend) (strings.Split domains ",")) globals0).
Proof.
  intros Hne. unfold main.
  destruct (String.eqb_spec domains ""); [contradiction|].
  rewrite zone_loop_declare. reflexivity.
Qed.

Lemma main_registry_normalised (domains backend : string) (g : Globals) :
  main domains backend = Configured g ->
  map_Forall (fun _ t => normalised t) (domain_backend g).
Proof.
  unfold main. destruct (String.eqb domains ""); [discriminate|].
  rewrite zone_loop_declare. intros [= <-].
  apply declare_all_normalised. apply map_Forall_empty.
Qed.

(** ** The claims on the normaliser and on the registry *)

(** C8, as amended. [fixUrl] is total: it is built from structural
    recursions only and indexes nothing. Its result never ends with a slash.
    The result opens with the scheme prefix [http://] or [ws://] whenever
    it is more than the bare [http:] or [ws:]. Normalising a second time
    changes nothing whenever the first result opens with the scheme prefix
    and is left alone by white-space trimming. *)
Theorem fixUrl_normal_form (s : string) :
  (exists r, fixUrl s = r) /\
  (forall t, fixUrl s <> t +:+ "/") /\
  (fixUrl s <> "http:" -> fixUrl s <> "ws:" ->
   strings.HasPrefix (fixUrl s) "http://" = true \/ strings.HasPrefix (fixUrl s) "ws://" = true) /\
  (strings.TrimSpace (fixUrl s) = fixUrl s ->
   strings.HasPrefix (fixUrl s) "http://" = true \/ strings.HasPrefix (fixUrl s) "ws://" = true ->
   fixUrl (fixUrl s) = fixUrl s).
Proof.
  split; [eexists; reflexivity|].
  split; [apply fixUrl_no_trailing_slash|].
  split.
  - intros Hh Hw.
    destruct (fixUrl_shape s) as [E | [E | (a & r & [-> | ->])]];
      [contradiction | contradiction | left; reflexivity | right; reflexivity].
  - apply fixUrl_fixed_point.
Qed.

Lemma fixUrl_normal_form_witness : fixUrl (fixUrl ":9000/") = fixUrl ":9000/".
Proof.
  apply (fixUrl_normal_form ":9000/"); [reflexivity | left; reflexivity].
Defined.

(** C8 as stated fails: after the trailing slash is cut, a blank that stood
    before it ends the result, and the second pass trims that blank. *)
Lemma fixUrl_not_idempotent : fixUrl (fixUrl "x /") <> fixUrl "x /".
Proof. vm_compute. discriminate. Qed.

(** The empty target, or one made of slashes, loses the slashes of its
    scheme: the result has no scheme prefix and is not a fixed point. *)
Example fixUrl_empty :
  fixUrl "" = "http:" /\ fixUrl "/" = "http:" /\ fixUrl "http:" = "http://http:".
Proof. repeat split; reflexivity. Qed.

(** C10. No output of [fixUrl] opens with [https://], so no target stored
    in the registry does. *)
Theorem backend_never_https :
  (forall s, strings.HasPrefix (fixUrl s) "https://" = false) /\
  (forall domains backend g d t,
     main domains backend = Configured g ->
     domain_backend g !! d = Some t ->
     strings.HasPrefix t "https://" = false).
Proof.
  split; [apply fixUrl_not_https|].
  intros domains backend g d t Hmain Hd.
  destruct (main_registry_normalised _ _ _ Hmain d t Hd) as [s ->].
  apply fixUrl_not_https.
Qed.

Lemma backend_never_https_witness :
  strings.HasPrefix "http://10.0.0.7:8443" "https://" = false.
Proof.
  eapply (proj2 backend_never_https "site.com->https://10.0.0.7:8443/" ":80" _ "site.com").
  - reflexivity.
  - vm_compute. reflexivity.
Defined.

(** C9. The loop of [main] reads each zone as [zone_decl] does (split at
    the first arrow only, the default when there is none), stores the
    normalised target under the domain, the last declaration of a domain
    winning, and lists the domains in order. *)
Theorem registry_construction :
  (forall domains backend,
     domains <> "" ->
     let decls := map (zone_decl backend) (strings.Split domains ",") in
     exists g,
       main domains backend = Configured g /\
       whitelisted g = map fst decls /\
       (forall pre d t post,
          decls = pre ++ (d, t) :: post -> d ∉ map fst post ->
          domain_backend g !! d = Some (fixUrl t)) /\
       (forall d, d ∉ map fst decls -> domain_backend g !! d = None)) /\
  zone_decl ":80" "b.com->:9000" = ("b.com", ":9000") /\
  zone_decl ":80" "a.com" = ("a.com", ":80") /\
  zone_decl ":80" "c.com->ws://h->x" = ("c.com", "ws://h->x") /\
  main "a.com,b.com->:9000" ":80" =
    Configured {| domain_backend :=
                    <["b.com" := "http://localhost:9000"]>
                      (<["a.com" := "http://localhost:80"]> ∅);
                  whitelisted := ["a.com"; "b.com"] |} /\
  (exists g, main "x.com->:1,x.com->:2" ":80" = Configured g /\
             domain_backend g !! "x.com" = Some "http://localhost:2").
Proof.
  split; [|repeat split; try reflexivity].
  - intros domains backend Hne decls. eexists. split; [apply main_configured, Hne|].
    fold decls. split; [|split].
    + rewrite declare_all_whitelisted. reflexivity.
    + intros pre d t post -> Hd. apply declare_all_last, Hd.
    + intros d Hd. rewrite declare_all_other by assumption. apply lookup_empty.
  - eexists. split; [reflexivity|]. vm_compute. reflexivity.
Qed.

Lemma registry_construction_witness :
  exists g,
    main "a.com->:1,b.com,a.com->:2" ":80" = Configured g /\
    domain_backend g !! "a.com" = Some "http://localhost:2" /\
    domain_backend g !! "c.com" = None.
Proof.
  destruct (proj1 registry_construction "a.com->:1,b.com,a.com->:2" ":80")
    as (g & Hmain & _ & Hlast & Hnone); [discriminate|].
  exists g. split; [exact Hmain|]. split.
  - apply (Hlast [("a.com", ":1"); ("b.com", ":80")] "a.com" ":2" []).
    + reflexivity.
    + apply not_elem_of_nil.
  - apply Hnone. vm_compute. intros H. 
    repeat (apply elem_of_cons in H as [H|H]; [discriminate|]).
    apply elem_of_nil in H. exact H.
Defined.

(** ** Cutting at a one-byte separator *)

Lemma Index_byte_absent (c : ascii) (s : string) :
  strings.inSet c s = false -> strings.Index s (String c "") = -1.
Proof.
  induction s as [|a s IH]; intros H; [reflexivity|].
  simpl in H. apply orb_false_iff in H as [Hca Hs].
  cbn [strings.Index strings.HasPrefix].
  rewrite Ascii.eqb_sym, Hca. cbn [andb]. rewrite (IH Hs). reflexivity.
Qed.

Lemma len_nonneg (s : string) : 0 <= len s.
Proof. unfold len. lia. Qed.

Lemma len_cons (a : ascii) (s : string) : len (String a s) = len s + 1.
Proof. unfold len. simpl String.length. lia. Qed.

Lemma Index_byte_first (c : ascii) (h p : string) :
  strings.inSet c h = false -> strings.Index (h +:+ String c p) (String c "") = len h.
Proof.
  induction h as [|a h IH]; intros H.
  - rewrite append_empty_l. cbn [strings.Index strings.HasPrefix].
    rewrite Ascii.eqb_refl. reflexivity.
  - simpl in H. apply orb_false_iff in H as [Hca Hs].
    rewrite append_cons. cbn [strings.Index strings.HasPrefix].
    rewrite Ascii.eqb_sym, Hca. cbn [andb]. rewrite (IH Hs), len_cons.
    pose proof (len_nonneg h). destruct (len h <? 0) eqn:E; [lia | reflexivity].
Qed.

Lemma substring_prefix (h x : string) :
  String.substring 0 (String.length h) (h +:+ x) = h.
Proof.
  induction h as [|a h IH].
  - destruct x; reflexivity.
  - rewrite append_cons. simpl. rewrite IH. reflexivity.
Qed.

Lemma drop_bytes_app (h x : string) (k : nat) :
  drop_bytes (String.length h + k) (h +:+ x) = drop_bytes k x.
Proof.
  induction h as [|a h IH]; [reflexivity|].
  rewrite append_cons. simpl. exact IH.
Qed.

Lemma cut_byte_absent (c : ascii) (s : string) :
  strings.inSet c s = false -> strings.cut s (String c "") = None.
Proof. intros H. unfold strings.cut. rewrite Index_byte_absent by assumption. reflexivity. Qed.

Lemma cut_byte_first (c : ascii) (h p : string) :
  strings.inSet c h = false -> strings.cut (h +:+ String c p) (String c "") = Some (h, p).
Proof.
  intros H. unfold strings.cut. rewrite Index_byte_first by assumption.
  pose proof (len_nonneg h). destruct (len h <? 0) eqn:E; [lia|].
  unfold slice, slice_from, len in *. f_equal. f_equal.
  - rewrite Z.sub_0_r, Nat2Z.id. apply substring_prefix.
  - replace (Z.to_nat (Z.of_nat (String.length h) + Z.of_nat (String.length (String c ""))))
      with (String.length h + 1)%nat by (simpl String.length; lia).
    rewrite drop_bytes_app. reflexivity.
Qed.

Lemma before_colon_eq (s : string) : before_colon s = Some (port_stripped s).
Proof.
  unfold before_colon, port_stripped. rewrite SplitN_2 by discriminate.
  destruct (strings.cut s ":") as [[a rest]|]; reflexivity.
Qed.

(** On [host:port] and on a bare [host], the host having no colon, this
    is the host. *)
Lemma port_stripped_host_port (h p : string) :
  strings.inSet ":" h = false -> port_stripped (h +:+ ":" +:+ p) = h.
Proof.
  intros H. unfold port_stripped.
  change (":" +:+ p) with (String ":" p). rewrite cut_byte_first by assumption. reflexivity.
Qed.

Lemma port_stripped_bare (h : string) :
  strings.inSet ":" h = false -> port_stripped h = h.
Proof. intros H. unfold port_stripped. rewrite cut_byte_absent by assumption. reflexivity. Qed.

(** ** Letter case *)

Lemma byte_val_range (c : ascii) : 0 <= byte_val c < 256.
Proof. unfold byte_val. pose proof (N_ascii_bounded c). lia. Qed.

Lemma byte_of_val (c : ascii) : byte_of (byte_val c) = c.
Proof.
  unfold byte_of. pose proof (byte_val_range c).
  rewrite Z.mod_small by assumption. unfold byte_val.
  rewrite N2Z.id. apply ascii_N_embedding.
Qed.

Lemma byte_val_of (z : Z) : 0 <= z < 256 -> byte_val (byte_of z) = z.
Proof.
  intros H. unfold byte_val, byte_of. rewrite Z.mod_small by assumption.
  rewrite N_ascii_embedding by lia. lia.
Qed.

Lemma byte_val_inj (a b : ascii) : byte_val a = byte_val b -> a = b.
Proof. intros H. rewrite <- (byte_of_val a), <- (byte_of_val b), H. reflexivity. Qed.

Lemma lowerASCII_cons (c : ascii) (s : string) :
  strings.lowerASCII (String c s) =
    String (if (65 <=? byte_val c) && (byte_val c <=? 90)
            then byte_of (byte_val c + (97 - 65)) else c)
           (strings.lowerASCII s).
Proof. reflexivity. Qed.

Lemma eq_nocase_lower (v w : string) :
  strings.isASCII w = true -> strings.lowerASCII w = w ->
  eq_nocase v w = true ->
  strings.isASCII v = true /\ strings.lowerASCII v = w.
Proof.
  revert w. induction v as [|x v IH]; intros [|y w] Hasc Hlow Heq;
    try discriminate; [split; reflexivity|].
  simpl in Heq. apply andb_true_iff in Heq as [Hxy Hvw]. apply Z.eqb_eq in Hxy.
  cbn [strings.isASCII] in Hasc. apply andb_true_iff in Hasc as [Hy Hw].
  apply Z.ltb_lt in Hy. unfold utf8.RuneSelf in Hy.
  rewrite lowerASCII_cons in Hlow. injection Hlow as Hy' Hw'.
  destruct (IH w Hw Hw' Hvw) as [IH1 IH2].
  pose proof (byte_val_range x) as Rx. pose proof (byte_val_range y) as Ry.
  assert ((65 <=? byte_val y) && (byte_val y <=? 90) = false) as Hny.
  { destruct ((65 <=? byte_val y) && (byte_val y <=? 90)) eqn:E; [|reflexivity].
    apply andb_true_iff in E as [E1 E2]. apply Z.leb_le in E1, E2.
    apply (f_equal byte_val) in Hy'. rewrite byte_val_of in Hy' by lia. lia. }
  unfold fold_case in Hxy. rewrite Hny in Hxy.
  cbn [strings.isASCII]. rewrite lowerASCII_cons, IH1, IH2.
  destruct ((65 <=? byte_val x) && (byte_val x <=? 90)) eqn:E.
  - apply andb_true_iff in E as [E1 E2]. apply Z.leb_le in E1, E2. split.
    + rewrite andb_true_r. apply Z.ltb_lt. unfold utf8.RuneSelf. lia.
    + f_equal. replace (byte_val x + (97 - 65)) with (byte_val y) by lia.
      apply byte_of_val.
  - split.
    + rewrite andb_true_r. apply Z.ltb_lt. unfold utf8.RuneSelf. lia.
    + f_equal. apply byte_val_inj. exact Hxy.
Qed.

Lemma lowerASCII_eq_nocase (v : string) : eq_nocase v (strings.lowerASCII v) = true.
Proof.
  induction v as [|x v IH]; [reflexivity|].
  rewrite lowerASCII_cons. cbn [eq_nocase]. rewrite IH, andb_true_r.
  apply Z.eqb_eq. pose proof (byte_val_range x) as Rx. unfold fold_case.
  destruct ((65 <=? byte_val x) && (byte_val x <=? 90)) eqn:E.
  - apply andb_true_iff in E as [E1 E2]. apply Z.leb_le in E1, E2.
    rewrite byte_val_of by lia.
    replace ((65 <=? byte_val x + (97 - 65)) && (byte_val x + (97 - 65) <=? 90)) with false; [lia|].
    symmetry. apply andb_false_iff. right. apply Z.leb_gt. lia.
  - rewrite E. reflexivity.
Qed.

(** [ToLower] decides equality up to ASCII case with a lower-case ASCII
    word, whatever the case table holds, as long as the tested text is
    ASCII (any text equal up to case to such a word is). *)
Lemma ToLower_eq_nocase (T : Z -> Z) (v w : string) :
  strings.isASCII w = true -> strings.lowerASCII w = w ->
  eq_nocase v w = true -> strings.ToLower T v = w.
Proof.
  intros Hw Hl H. destruct (eq_nocase_lower v w Hw Hl H) as [Ha E].
  unfold strings.ToLower. rewrite Ha. exact E.
Qed.

Lemma ToLower_ascii_inv (T : Z -> Z) (v w : string) :
  strings.isASCII v = true -> strings.ToLower T v = w -> eq_nocase v w = true.
Proof.
  intros Ha <-. unfold strings.ToLower. rewrite Ha. apply lowerASCII_eq_nocase.
Qed.

(** Above ASCII the case table decides: the Kelvin sign, U+212A, has the
    lower case [k] in Go's table, as in the table of the examples. *)
Example ToLower_kelvin_sign :
  strings.ToLower (To_LowerCase (GoLib := demoLib))
    ("WebSoc" +:+ String (byte_of 0xE2) (String (byte_of 0x84) (String (byte_of 0xAA) "")) +:+ "et")
  = "websocket".
Proof. vm_compute. reflexivity. Qed.

(** ** The dispatcher *)

Section Dispatch.

Context `{lib : GoLib}.

Lemma values_forwarded_other (hdr : http.HeaderMap) (ip key : string) :
  key <> "X-Forwarded-For" -> key <> "X-Forwarded-Proto" ->
  http.values (forwarded hdr ip) key = http.values hdr key.
Proof.
  intros H1 H2. unfold http.values, forwarded.
  rewrite !lookup_insert_ne by congruence. reflexivity.
Qed.

Lemma handler_unregistered (g : Globals) (r : http.Request) :
  domain_backend g !! port_stripped (http.Host r) = None ->
  handler g r =
    (http.set_Host (port_stripped (http.Host r)) r,
     Replied (http.Error (port_stripped (http.Host r) +:+ ": not found")
                http.StatusNotImplemented)).
Proof.
  intros Hnone. unfold handler. rewrite before_colon_eq.
  cbn [http.Host http.set_Host]. rewrite Hnone. reflexivity.
Qed.

Lemma handler_registered (g : Globals) (r : http.Request) (t : string) (ru : url.URL) :
  domain_backend g !! port_stripped (http.Host r) = Some t ->
  http.URL r = Some ru ->
  handler g r =
    (rewritten r,
     let u := url_Parse (upstream t ru) in
     if String.eqb (strings.ToLower To_LowerCase (http.Get (http.Header r) "Upgrade"))
          "websocket"
     then Tunnel u
     else Forward u
            (mkReverseProxy (director (Director (NewSingleHostReverseProxy u)) (rewritten r) u))).
Proof.
  intros Hreg Hurl. unfold handler. rewrite before_colon_eq.
  cbn [http.Host http.set_Host]. rewrite Hreg.
  cbn [http.RemoteAddr http.set_Header http.Header http.set_Host http.URL http.Host].
  rewrite before_colon_eq, Hurl, Hreg. cbn [default id option_rect from_option].
  assert (http.values (<["X-Forwarded-Proto" := ["https"]]> (http.Header r)) "X-Forwarded-For"
          = http.values (http.Header r) "X-Forwarded-For") as ->.
  { unfold http.values. rewrite lookup_insert_ne by discriminate. reflexivity. }
  fold (forwarded (http.Header r) (port_stripped (http.RemoteAddr r))).
  assert (http.Get (forwarded (http.Header r) (port_stripped (http.RemoteAddr r))) "Upgrade"
          = http.Get (http.Header r) "Upgrade") as ->.
  { unfold http.Get. rewrite values_forwarded_other by discriminate. reflexivity. }
  destruct (String.eqb _ "websocket"); reflexivity.
Qed.

(** [TrimLeft] with the cutset ["/"] removes the leading slashes, all of
    them and nothing else. *)
Lemma TrimLeft_slashes (k : nat) (rest : string) :
  strings.HasPrefix rest "/" = false ->
  strings.TrimLeft (slashes k +:+ rest) "/" = rest.
Proof.
  intros H. induction k as [|k IH].
  - rewrite append_empty_l. destruct rest as [|c rest]; [reflexivity|].
    simpl in H. rewrite andb_true_r in H. simpl. rewrite H. reflexivity.
  - simpl slashes. rewrite append_cons. simpl. exact IH.
Qed.

Lemma TrimLeft_split (s : string) :
  exists k, s = slashes k +:+ strings.TrimLeft s "/" /\
            strings.HasPrefix (strings.TrimLeft s "/") "/" = false.
Proof.
  induction s as [|c s (k & E & H)]; [exists 0%nat; split; reflexivity|].
  cbn [strings.TrimLeft strings.inSet]. rewrite orb_false_r.
  destruct (Ascii.eqb c "/") eqn:Ec.
  - apply Ascii.eqb_eq in Ec as ->. exists (S k). split; [|exact H].
    simpl slashes. rewrite append_cons. f_equal. exact E.
  - exists 0%nat. split; [reflexivity|]. simpl. rewrite Ec. reflexivity.
Qed.

(** C1. For a registered host the route depends on the [Upgrade] header
    alone: a value equal to [websocket] up to letter case goes to the tunnel
    with the upstream URL; any other ASCII value goes to the forwarder; and
    in general the test is Go's [ToLower] of the value against [websocket]. *)
Theorem dispatch_by_upgrade (g : Globals) (r : http.Request) (t : string) (ru : url.URL) :
  domain_backend g !! port_stripped (http.Host r) = Some t ->
  http.URL r = Some ru ->
  let u := url_Parse (upstream t ru) in
  let v := http.Get (http.Header r) "Upgrade" in
  let proxy :=
    mkReverseProxy (director (Director (NewSingleHostReverseProxy u)) (rewritten r) u) in
  (eq_nocase v "websocket" = true -> snd (handler g r) = Tunnel u) /\
  (strings.isASCII v = true -> eq_nocase v "websocket" = false ->
   snd (handler g r) = Forward u proxy) /\
  snd (handler g r) =
    (if String.eqb (strings.ToLower To_LowerCase v) "websocket"
     then Tunnel u else Forward u proxy).
Proof.
  intros Hreg Hurl u v proxy.
  rewrite (handler_registered g r t ru Hreg Hurl). cbn [snd].
  fold u v proxy. split; [|split].
  - intros Heq. rewrite (ToLower_eq_nocase _ v "websocket"); auto.
  - intros Hasc Hneq.
    destruct (String.eqb_spec (strings.ToLower To_LowerCase v) "websocket") as [E|E];
      [|reflexivity].
    apply (ToLower_ascii_inv _ _ _ Hasc) in E. congruence.
  - reflexivity.
Qed.

(** C4. The text parsed as upstream URL is the stored target, one slash,
    and the request URI without its leading slashes; the stored target never
    ends with a slash, whatever was configured, so exactly one slash stands
    at the joint, and that URL is what both routes receive. *)
Theorem upstream_one_slash (domains backend : string) (g : Globals) (r : http.Request)
    (t : string) (ru : url.URL) :
  main domains backend = Configured g ->
  domain_backend g !! port_stripped (http.Host r) = Some t ->
  http.URL r = Some ru ->
  (forall x, t <> x +:+ "/") /\
  (exists k rest,
     RequestURI ru = slashes k +:+ rest /\
     strings.HasPrefix rest "/" = false /\
     upstream t ru = t +:+ "/" +:+ rest) /\
  (forall k rest,
     RequestURI ru = slashes k +:+ rest -> strings.HasPrefix rest "/" = false ->
     upstream t ru = t +:+ "/" +:+ rest) /\
  (RequestURI ru = "/foo?x=1" -> upstream t ru = t +:+ "/foo?x=1") /\
  (snd (handler g r) = Tunnel (url_Parse (upstream t ru)) \/
   exists proxy, snd (handler g r) = Forward (url_Parse (upstream t ru)) proxy).
Proof.
  intros Hmain Hreg Hurl. split; [|split; [|split; [|split]]].
  - destruct (main_registry_normalised _ _ _ Hmain _ _ Hreg) as [c ->].
    apply fixUrl_no_trailing_slash.
  - destruct (TrimLeft_split (RequestURI ru)) as (k & E & H).
    exists k, (strings.TrimLeft (RequestURI ru) "/"). repeat split; assumption || reflexivity.
  - intros k rest E H. unfold upstream. rewrite E, TrimLeft_slashes by assumption. reflexivity.
  - intros E. unfold upstream. rewrite E. reflexivity.
  - rewrite (handler_registered g r t ru Hreg Hurl). cbn [snd].
    destruct (String.eqb _ "websocket"); [left; reflexivity | right; eexists; reflexivity].
Qed.

(** For a key that the registry does not hold, the key being the text of
    [Host] before its first colon, the handler answers 501 with a body that
    opens with the key, and does nothing else: the request keeps its headers
    and is handed to neither proxy. *)
Theorem unregistered_host_501 (g : Globals) (r : http.Request) :
  domain_backend g !! port_stripped (http.Host r) = None ->
  exists resp,
    handler g r = (http.set_Host (port_stripped (http.Host r)) r, Replied resp) /\
    http.StatusCode resp = 501 /\
    http.ResponseBody resp = port_stripped (http.Host r) +:+ ": not found" +:+ LF /\
    http.Header (fst (handler g r)) = http.Header r.
Proof.
  intros Hnone. rewrite (handler_unregistered g r Hnone). eexists.
  split; [reflexivity|]. split; [reflexivity|]. split; [|reflexivity].
  simpl. apply append_assoc.
Qed.

(** C7. Once the default director has run on the outbound request,
    whatever it has made of it, the director that the handler installs
    leaves the request with the port-stripped host of the inbound request
    and with the upstream URL, and with nothing else changed. With Go's
    default director this is what happens on every outbound request that
    has a URL when the upstream text parses; when it does not parse the
    default director fails on the nil target and no outbound request is
    made. *)
Theorem director_overrides (g : Globals) (r : http.Request) (t : string) (ru : url.URL) :
  domain_backend g !! port_stripped (http.Host r) = Some t ->
  http.URL r = Some ru ->
  String.eqb (strings.ToLower To_LowerCase (http.Get (http.Header r) "Upgrade")) "websocket"
    = false ->
  let u := url_Parse (upstream t ru) in
  (exists proxy,
     snd (handler g r) = Forward u proxy /\
     (forall req req',
        Director proxy req = Some req' ->
        http.Host req' = port_stripped (http.Host r) /\ http.URL req' = u) /\
     (forall target req,
        u = Some target -> is_Some (http.URL req) ->
        Director proxy req =
          Some (http.set_URL u (http.set_Host (port_stripped (http.Host r))
                                  (rewriteRequestURL target req)))) /\
     (u = None -> forall req, Director proxy req = None)) /\
  (forall defaultDirector req req0,
     defaultDirector req = Some req0 ->
     director defaultDirector (fst (handler g r)) u req =
       Some (http.set_URL u (http.set_Host (port_stripped (http.Host r)) req0)) /\
     http.Host (http.set_URL u (http.set_Host (port_stripped (http.Host r)) req0))
       = port_stripped (http.Host r) /\
     http.URL (http.set_URL u (http.set_Host (port_stripped (http.Host r)) req0)) = u).
Proof.
  intros Hreg Hurl Hup u.
  rewrite (handler_registered g r t ru Hreg Hurl). cbn [fst snd]. fold u. rewrite Hup.
  split.
  - eexists. split; [reflexivity|]. cbn [Director]. unfold director, NewSingleHostReverseProxy.
    cbn [Director]. split; [|split].
    + intros req req' H. destruct u as [target|]; [|discriminate].
      destruct (http.URL req); [|discriminate]. injection H as <-. split; reflexivity.
    + intros target req -> [x Hx]. rewrite Hx. reflexivity.
    + intros -> req. reflexivity.
  - intros dd req req0 Hdd. unfold director. rewrite Hdd. repeat split.
Qed.

(** The two forwarding headers, on every request to a registered host:
    [X-Forwarded-Proto] is exactly [https], [X-Forwarded-For] is what it was
    followed by the text of [RemoteAddr] before its first colon. *)
Lemma handler_forwarded_headers (g : Globals) (r : http.Request) (t : string) (ru : url.URL) :
  domain_backend g !! port_stripped (http.Host r) = Some t ->
  http.URL r = Some ru ->
  http.Header (fst (handler g r)) !! "X-Forwarded-Proto" = Some ["https"] /\
  http.Header (fst (handler g r)) !! "X-Forwarded-For" =
    Some (http.values (http.Header r) "X-Forwarded-For" ++ [port_stripped (http.RemoteAddr r)]).
Proof.
  intros Hreg Hurl. rewrite (handler_registered g r t ru Hreg Hurl).
  cbn [fst rewritten http.Header http.set_Header]. unfold forwarded. split.
  - rewrite lookup_insert_ne by discriminate. apply lookup_insert_eq.
  - apply lookup_insert_eq.
Qed.

End Dispatch.

(** ** The tunnel *)

Section TunnelFacts.

Context `{lib : GoLib}.

Lemma concat_all_app (xs ys : list string) :
  concat_all (xs ++ ys) = concat_all xs +:+ concat_all ys.
Proof.
  induction xs as [|x xs IH]; [reflexivity|].
  simpl. rewrite IH, append_assoc. reflexivity.
Qed.

Lemma value_lines (k : string) (vs : list string) (message : string) :
  fold_left (fun message v => message +:+ k +:+ ": " +:+ v +:+ LF) vs message =
    message +:+ concat_all (map (header_line k) vs).
Proof.
  revert message. induction vs as [|v vs IH]; intros message; simpl.
  - rewrite append_empty_r. reflexivity.
  - rewrite IH, append_assoc. reflexivity.
Qed.

Lemma header_lines_concat (hs : list (string * list string)) (message : string) :
  header_lines message hs = message +:+ concat_all (lines_of hs).
Proof.
  unfold header_lines, lines_of. revert message.
  induction hs as [|[k vs] hs IH]; intros message; simpl.
  - rewrite append_empty_r. reflexivity.
  - rewrite IH, value_lines, concat_all_app, append_assoc. reflexivity.
Qed.

(** The replayed block: request line, [Host] line, one line per header
    value, an empty line; every line ends with a bare line feed. *)
Lemma replay_message_shape (W : World) (r : http.Request) (ru : url.URL) :
  replay_message W r ru =
    (http.Method r +:+ " " +:+ RequestURI ru +:+ " " +:+ http.Proto r +:+ LF)
    +:+ ("Host: " +:+ http.Host r +:+ LF)
    +:+ concat_all (lines_of (range_Header W (http.Header r)))
    +:+ LF.
Proof.
  unfold replay_message. rewrite header_lines_concat, !append_assoc. reflexivity.
Qed.

(** A key that carries [n] values gives [n] lines. *)
Lemma lines_of_length (hs : list (string * list string)) :
  length (lines_of hs) = list_sum (map (fun kv => length (snd kv)) hs).
Proof.
  unfold lines_of. induction hs as [|[k vs] hs IH]; [reflexivity|].
  simpl. rewrite length_app, length_map, IH. reflexivity.
Qed.

(** The order in which the map is walked permutes the header lines and
    nothing more. *)
Lemma lines_of_perm (hs hs' : list (string * list string)) :
  hs ≡ₚ hs' -> lines_of hs ≡ₚ lines_of hs'.
Proof.
  unfold lines_of. induction 1 as [|kv l l' _ IH|kv kv' l|l l' l'' _ IH1 _ IH2]; simpl.
  - reflexivity.
  - rewrite IH. reflexivity.
  - rewrite !app_assoc. apply Permutation_app_tail, Permutation_app_comm.
  - rewrite IH1. exact IH2.
Qed.

Lemma replay_line_count (W : World) (hdr : http.HeaderMap) :
  range_Header W hdr ≡ₚ map_to_list hdr ->
  length (lines_of (range_Header W hdr)) =
    list_sum (map (fun kv => length (snd kv)) (map_to_list hdr)).
Proof.
  intros H. rewrite (Permutation_length (lines_of_perm _ _ H)). apply lines_of_length.
Qed.

(** C3. When [net.Dial] fails the tunnel answers 500 with the text of the
    error and stops: nothing is hijacked, nothing is copied. *)
Theorem dial_failure_500 (W : World) (u : url.URL) (w : ResponseWriter)
    (r : http.Request) (err : string) :
  net_Dial W "tcp" (url.Host u) = inr err ->
  let trace := NewWebsocketReverseProxy W (Some u) w r in
  trace = [Dial "tcp" (url.Host u); Respond (http.Error err 500)] /\
  http.StatusCode (http.Error err 500) = 500 /\
  (Hijack ∉ trace) /\
  (forall dst src, GoCopy dst src ∉ trace) /\
  (forall dst src, Copy dst src ∉ trace).
Proof.
  intros Hdial trace. subst trace. unfold NewWebsocketReverseProxy. rewrite Hdial.
  split; [reflexivity|]. split; [reflexivity|].
  repeat split; intros; intros Hin;
    repeat (apply elem_of_cons in Hin as [Hin|Hin]; [discriminate|]);
    apply elem_of_nil in Hin; exact Hin.
Qed.

End TunnelFacts.

(** ** The claims at concrete requests *)

Lemma chat_registered :
  domain_backend demoGlobals !! port_stripped (http.Host chat_request)
  = Some "ws://10.0.0.7:9000".
Proof. vm_compute. reflexivity. Qed.

Lemma chat_has_url : http.URL chat_request = Some chat_url.
Proof. vm_compute. reflexivity. Qed.

Lemma dispatch_by_upgrade_witness :
  snd (handler (lib := demoLib) demoGlobals chat_request)
  = Tunnel (demo_Parse "ws://10.0.0.7:9000/chat?room=1").
Proof.
  pose proof (proj1 (dispatch_by_upgrade (lib := demoLib) demoGlobals chat_request
                       "ws://10.0.0.7:9000" chat_url chat_registered chat_has_url)) as H.
  rewrite H; [|vm_compute; reflexivity].
  vm_compute. reflexivity.
Defined.

Lemma demo_configured :
  main "site.com->:8080/,chat.site.com->ws://10.0.0.7:9000" ":80" = Configured demoGlobals.
Proof. vm_compute. reflexivity. Qed.

Lemma page_registered :
  domain_backend demoGlobals !! port_stripped (http.Host page_request)
  = Some "http://localhost:8080".
Proof. vm_compute. reflexivity. Qed.

Lemma page_has_url : http.URL page_request = Some page_url.
Proof. vm_compute. reflexivity. Qed.

Lemma upstream_one_slash_witness :
  upstream (lib := demoLib) "http://localhost:8080" page_url
  = "http://localhost:8080" +:+ "/" +:+ "foo?x=1".
Proof.
  apply (proj1 (proj2 (proj2
           (upstream_one_slash (lib := demoLib) _ _ demoGlobals page_request
              "http://localhost:8080" page_url
              demo_configured page_registered page_has_url)))
           2%nat "foo?x=1");
    vm_compute; reflexivity.
Defined.

Lemma director_overrides_witness :
  exists proxy,
    snd (handler (lib := demoLib) demoGlobals page_request)
    = Forward (demo_Parse "http://localhost:8080/foo?x=1") proxy /\
    forall req req',
      Director proxy req = Some req' ->
      http.Host req' = "site.com" /\
      http.URL req' = demo_Parse "http://localhost:8080/foo?x=1".
Proof.
  assert (String.eqb
            (strings.ToLower (To_LowerCase (GoLib := demoLib))
               (http.Get (http.Header page_request) "Upgrade")) "websocket" = false) as Hup
    by (vm_compute; reflexivity).
  destruct (proj1 (director_overrides (lib := demoLib) demoGlobals page_request
                     "http://localhost:8080" page_url
                     page_registered page_has_url Hup))
    as (proxy & Hroute & Hdir & _).
  exists proxy. split; [exact Hroute|]. intros req req' H.
  destruct (Hdir req req' H) as [Hhost Hu]. split; [exact Hhost | exact Hu].
Defined.

Lemma unregistered_host_501_witness :
  exists resp,
    handler (lib := demoLib) demoGlobals stray_request
    = (http.set_Host "evil.test" stray_request, Replied resp) /\
    http.StatusCode resp = 501 /\
    http.ResponseBody resp = "evil.test" +:+ ": not found" +:+ LF /\
    http.Header (fst (handler (lib := demoLib) demoGlobals stray_request))
    = http.Header stray_request.
Proof.
  apply (unregistered_host_501 (lib := demoLib) demoGlobals stray_request).
  vm_compute. reflexivity.
Defined.

Lemma dial_failure_500_witness :
  NewWebsocketReverseProxy (lib := demoLib) refusing
    (demo_Parse "ws://10.0.0.7:9000/chat?room=1")
    (mkResponseWriter (Some (inl (conn 2)))) (rewritten chat_request)
  = [Dial "tcp" "10.0.0.7:9000";
     Respond (http.Error "dial tcp 10.0.0.7:9000: connect: connection refused" 500)].
Proof.
  apply (dial_failure_500 (lib := demoLib) refusing
           (url.mkURL "ws" "" "10.0.0.7:9000" "/chat" "" false "room=1")).
  reflexivity.
Defined.

(** C2, at an upgrade request: the block that the tunnel writes has the
    request line, the [Host] line and one line per header value, but every
    line ends with a line feed alone: the block holds no carriage return,
    which the framing of HTTP on the wire requires before each line feed. *)
Theorem replay_bare_line_feeds :
  let message :=
    "GET /chat?room=1 HTTP/1.1" +:+ LF +:+
    "Host: chat.site.com" +:+ LF +:+
    "Upgrade: WebSocket" +:+ LF +:+
    "X-Forwarded-For: 198.51.100.4" +:+ LF +:+
    "X-Forwarded-For: 203.0.113.9" +:+ LF +:+
    "X-Forwarded-Proto: https" +:+ LF +:+
    LF in
  NewWebsocketReverseProxy (lib := demoLib) (demoWorld (inl (conn 1)))
    (demo_Parse "ws://10.0.0.7:9000/chat?room=1")
    (mkResponseWriter (Some (inl (conn 2)))) (rewritten chat_request)
  = [Dial "tcp" "10.0.0.7:9000"; Hijack;
     GoCopy (conn 1) [StringReader message; BodyReader ""; ConnReader (conn 2)];
     Copy (conn 2) (conn 1); Close (conn 2); Close (conn 1)] /\
  strings.inSet "013"%char message = false.
Proof. vm_compute. split; reflexivity. Qed.

(** C6, at a request whose [Host] is an IPv6 literal with a port and is
    not registered: the handler keeps the text before the first colon, looks
    that up and names it in the body of its 501, which so does not contain
    the host that was asked for. *)
Theorem unregistered_ipv6_host_body :
  let r := demoRequest "[2001:db8::1]:443" "203.0.113.9:51234" "/" "" in
  domain_backend demoGlobals !! "[2001:db8::1]" = None /\
  handler (lib := demoLib) demoGlobals r =
    (http.set_Host "[2001" r,
     Replied {| http.StatusCode := 501;
                http.ContentType := "text/plain; charset=utf-8";
                http.ResponseBody := "[2001: not found" +:+ LF |}) /\
  strings.Index ("[2001: not found" +:+ LF) "[2001:db8::1]" = -1.
Proof. vm_compute. repeat split; reflexivity. Qed.

(** C5, at a client that connects over IPv6: the handler keeps the text
    of [RemoteAddr] before its first colon, which is not the client's IP. *)
Theorem forwarded_for_ipv6_client :
  let r := demoRequest "site.com" "[2001:db8::1]:51234" "/" "" in
  http.Header (fst (handler (lib := demoLib) demoGlobals r)) !! "X-Forwarded-For"
  = Some ["198.51.100.4"; "[2001"] /\
  http.Header (fst (handler (lib := demoLib) demoGlobals r)) !! "X-Forwarded-Proto"
  = Some ["https"].
Proof. vm_compute. split; reflexivity. Qed.

(** For an address [ip:port] whose [ip] has no colon, as with IPv4, the
    appended value is the [ip]. *)
Lemma forwarded_for_ipv4 `{lib : GoLib} (g : Globals) (r : http.Request)
    (t ip port : string) (ru : url.URL) :
  domain_backend g !! port_stripped (http.Host r) = Some t ->
  http.URL r = Some ru ->
  strings.inSet ":" ip = false ->
  http.RemoteAddr r = ip +:+ ":" +:+ port ->
  http.Header (fst (handler g r)) !! "X-Forwarded-For" =
    Some (http.values (http.Header r) "X-Forwarded-For" ++ [ip]).
Proof.
  intros Hreg Hurl Hip Haddr.
  destruct (handler_forwarded_headers g r t ru Hreg Hurl) as [_ ->].
  rewrite Haddr, port_stripped_host_port by assumption. reflexivity.
Qed.

(** * Further properties of the code *)

(** ** More on [fixUrl] *)

Lemma TrimRight_app_nonempty (a b cutset : string) :
  strings.TrimRight b cutset <> "" ->
  strings.TrimRight (a +:+ b) cutset = a +:+ strings.TrimRight b cutset.
Proof.
  intros Hb. induction a as [|c a IH]; [reflexivity|].
  rewrite !append_cons, TrimRight_cons, IH.
  destruct (a +:+ strings.TrimRight b cutset) as [|d x] eqn:E; [|reflexivity].
  apply append_eq_empty in E as [_ E]. contradiction.
Qed.

Lemma TrimRight_length (s cutset : string) :
  (String.length (strings.TrimRight s cutset) <= String.length s)%nat.
Proof.
  induction s as [|c s IH]; [reflexivity|].
  rewrite TrimRight_cons. destruct (strings.TrimRight s cutset) as [|d x].
  - destruct (strings.inSet c cutset); simpl; lia.
  - simpl in *. lia.
Qed.

Lemma append_length (s t : string) :
  String.length (s +:+ t) = (String.length s + String.length t)%nat.
Proof. induction s as [|c s IH]; [reflexivity|]. rewrite append_cons. simpl. lia. Qed.

Lemma substring_0_prefix (n : nat) (x : string) :
  exists b, x = String.substring 0 n x +:+ b.
Proof.
  revert x. induction n as [|n IH]; intros x.
  - exists x. destruct x; reflexivity.
  - destruct x as [|c x]; [exists ""; reflexivity|].
    destruct (IH x) as [b Hb]. exists b. simpl. rewrite append_cons. f_equal. exact Hb.
Qed.

Lemma slice_0_prefix (x : string) (k : Z) : exists b, x = slice x 0 k +:+ b.
Proof. unfold slice. apply substring_0_prefix. Qed.

(** On a text that opens with an ASCII byte other than white space,
    [TrimSpace] cuts at the end only. *)
Lemma TrimSpace_prefix (c : ascii) (r : string) :
  byte_val c < 128 -> strings.asciiSpace (byte_val c) = false ->
  exists b, String c r = strings.TrimSpace (String c r) +:+ b.
Proof.
  intros Hc Hsp. unfold strings.TrimSpace. cbn [strings.TrimSpace_start].
  replace (utf8.RuneSelf <=? byte_val c) with false
    by (symmetry; apply Z.leb_gt; exact Hc).
  rewrite Hsp. cbn [negb].
  destruct (strings.TrimSpace_stop _ _) as [stop slow].
  destruct slow; [|apply slice_0_prefix].
  unfold strings.TrimRightFunc.
  destruct (slice_0_prefix (String c r) stop) as [b1 Hb1].
  destruct (slice_0_prefix (slice (String c r) 0 stop)
              (let i := strings.lastIndexFunc (slice (String c r) 0 stop) unicode.IsSpace false in
               if (0 <=? i) && (utf8.RuneSelf <=? at_ (slice (String c r) 0 stop) i)
               then i + snd (utf8.DecodeRuneInString (slice_from (slice (String c r) 0 stop) i))
               else i + 1)) as [b2 Hb2].
  exists (b2 +:+ b1). rewrite <- append_assoc. cbv zeta in Hb2. rewrite <- Hb2. exact Hb1.
Qed.

(** Once trimmed of white space, a text that opens with a scheme only
    loses its trailing slashes. *)
Lemma fixUrl_of_schemed (s : string) :
  has_scheme (strings.TrimSpace s) = true ->
  fixUrl s = strings.TrimRight (strings.TrimSpace s) "/".
Proof.
  intros Hs. unfold fixUrl. set (t := strings.TrimSpace s) in *.
  unfold has_scheme in Hs. apply orb_true_iff in Hs.
  assert (strings.HasPrefix t "https://" = false) as Hhttps.
  { destruct Hs as [H|H]; destruct (HasPrefix_inv _ _ H) as [y ->]; reflexivity. }
  assert (strings.HasPrefix t ":" = false) as Hcolon.
  { destruct Hs as [H|H]; destruct (HasPrefix_inv _ _ H) as [y ->]; reflexivity. }
  unfold strings.TrimPrefix. rewrite Hhttps.
  destruct (strings.Index t ":" =? 0) eqn:Hi.
  { apply Z.eqb_eq, Index_zero in Hi. congruence. }
  destruct Hs as [H|H]; rewrite H; [rewrite andb_false_r | rewrite andb_false_l];
    reflexivity.
Qed.

Lemma fixUrl_fixed_point_iff (s : string) :
  fixUrl s = s <->
  strings.TrimSpace s = s /\ has_scheme s = true /\ strings.TrimRight s "/" = s.
Proof.
  split.
  - intros H.
    assert (strings.TrimRight s "/" = s) as Htr by (rewrite <- H at 1 2; apply fixUrl_TrimRight).
    assert (has_scheme s = true) as Hsch.
    { destruct (fixUrl_shape s) as [E | [E | (a & r & [E | E])]]; rewrite H in E; subst s.
      - vm_compute in H. discriminate.
      - vm_compute in H. discriminate.
      - reflexivity.
      - reflexivity. }
    split; [|split; assumption].
    assert (exists b, s = strings.TrimSpace s +:+ b) as [b Hb].
    { unfold has_scheme in Hsch. apply orb_true_iff in Hsch as [E|E];
        destruct (HasPrefix_inv _ _ E) as [y ->];
        rewrite append_cons; apply TrimSpace_prefix; reflexivity. }
    destruct (has_scheme (strings.TrimSpace s)) eqn:Ht.
    + rewrite (fixUrl_of_schemed s Ht) in H.
      pose proof (TrimRight_length (strings.TrimSpace s) "/") as Hlen.
      rewrite H in Hlen. rewrite Hb, append_length in Hlen at 1.
      destruct b; [rewrite append_empty_r in Hb; congruence | simpl in Hlen; lia].
    + exfalso. unfold fixUrl in H.
      remember (strings.TrimSpace s) as t eqn:Et.
      unfold has_scheme in Hsch. apply orb_true_iff in Hsch as [E|E];
        destruct (HasPrefix_inv _ _ E) as [y ->]; clear E Htr;
        repeat (destruct t as [|? t];
                [ vm_compute in H; try discriminate H
                | rewrite !append_cons in Hb; injection Hb as <- Hb ]);
        try (vm_compute in Ht; discriminate Ht);
        injection H as Hy; subst y; vm_compute in Et; discriminate Et.
  - intros (Hsp & Hsch & Htr).
    rewrite fixUrl_of_schemed by (rewrite Hsp; exact Hsch).
    rewrite Hsp. exact Htr.
Qed.

(** X1. The fixed points of [fixUrl] are exactly the texts in normal form:
    no white space around, one of the two schemes in front, no slash at the
    end. So a second pass over a result changes nothing exactly when the
    result has its scheme and ends with no white space. *)
Theorem fixUrl_fixed_points (s : string) :
  (fixUrl s = s <->
   strings.TrimSpace s = s /\ has_scheme s = true /\ strings.TrimRight s "/" = s) /\
  (fixUrl (fixUrl s) = fixUrl s <->
   strings.TrimSpace (fixUrl s) = fixUrl s /\ has_scheme (fixUrl s) = true).
Proof.
  split; [apply fixUrl_fixed_point_iff|].
  rewrite fixUrl_fixed_point_iff. split.
  - intros (H1 & H2 & _). split; assumption.
  - intros (H1 & H2). repeat split; try assumption. apply fixUrl_TrimRight.
Qed.

Lemma fixUrl_fixed_points_witness : fixUrl "ws://10.0.0.7:9000" = "ws://10.0.0.7:9000".
Proof.
  apply (proj1 (fixUrl_fixed_points "ws://10.0.0.7:9000")).
  repeat split; vm_compute; reflexivity.
Defined.

(** X2. A bare port, white space around it or not, is given the host
    [localhost] and the scheme [http]; only the slashes at its end go. *)
Theorem fixUrl_bare_port (s p : string) :
  strings.TrimSpace s = String ":" p ->
  fixUrl s = "http://localhost:" +:+ strings.TrimRight p "/".
Proof.
  intros H. unfold fixUrl. rewrite H.
  change (strings.TrimPrefix (String ":" p) "https://") with (String ":" p).
  replace (strings.Index (String ":" p) ":" =? 0) with true
    by (symmetry; apply Z.eqb_eq, Index_zero; reflexivity).
  change (negb (strings.HasPrefix ("localhost" +:+ String ":" p) "ws://")
          && negb (strings.HasPrefix ("localhost" +:+ String ":" p) "http://")) with true.
  cbv iota.
  change ("http://" +:+ "localhost" +:+ String ":" p)
    with ("http://localhost" +:+ String ":" p).
  rewrite TrimRight_app_nonempty; rewrite TrimRight_cons_notin by reflexivity;
    [reflexivity | discriminate].
Qed.

Lemma fixUrl_bare_port_witness :
  fixUrl " :9000// " = "http://localhost:" +:+ strings.TrimRight "9000//" "/".
Proof. apply fixUrl_bare_port. vm_compute. reflexivity. Defined.

(** X3. A target written with [https://] is stored as the same target
    without it, that is as a plain [http://] (or [ws://]) one: the scheme is
    dropped once, exactly as written in lower case. *)
Theorem fixUrl_https_dropped (s rest : string) :
  strings.TrimSpace s = "https://" +:+ rest ->
  strings.TrimSpace rest = rest ->
  strings.HasPrefix rest "https://" = false ->
  fixUrl s = fixUrl rest.
Proof.
  intros Hs Hrest Hno.
  assert (strings.TrimPrefix (strings.TrimSpace s) "https://" = rest) as E1.
  { rewrite Hs. unfold strings.TrimPrefix. rewrite HasPrefix_app.
    unfold slice_from, len. rewrite Nat2Z.id.
    change (String.length "https://") with (String.length "https://" + 0)%nat.
    rewrite drop_bytes_app. reflexivity. }
  assert (strings.TrimPrefix (strings.TrimSpace rest) "https://" = rest) as E2.
  { rewrite Hrest. unfold strings.TrimPrefix. rewrite Hno. reflexivity. }
  unfold fixUrl. rewrite E1, E2. reflexivity.
Qed.

Lemma fixUrl_https_dropped_witness :
  fixUrl " https://10.0.0.7:8443/ " = fixUrl "10.0.0.7:8443/".
Proof. apply fixUrl_https_dropped; vm_compute; reflexivity. Defined.

Lemma TrimRight_empty_iff (rest : string) :
  strings.TrimRight rest "/" = "" <-> exists k, rest = slashes k.
Proof.
  split.
  - induction rest as [|c rest IH]; intros H; [exists 0%nat; reflexivity|].
    rewrite TrimRight_cons in H.
    destruct (strings.TrimRight rest "/") as [|d x]; [|discriminate].
    destruct (IH eq_refl) as [k ->].
    cbn [strings.inSet] in H. rewrite orb_false_r in H.
    destruct (Ascii.eqb c "/") eqn:Ec; [|discriminate].
    apply Ascii.eqb_eq in Ec as ->. exists (S k). reflexivity.
  - intros [k ->]. induction k as [|k IH]; [reflexivity|].
    cbn [slashes]. rewrite TrimRight_slash_cons, IH. reflexivity.
Qed.

(** X4. Every input reaches the final [TrimRight] of [fixUrl] as [http:]
    or [ws:], two slashes and a rest. The result is the bare [http:] or
    [ws:] exactly when that rest is made of slashes only (the empty rest
    included); otherwise it is the scheme, the two slashes and the rest
    without its trailing slashes, which is then not empty and ends with no
    slash. *)
Theorem fixUrl_results :
  (forall s, exists scheme rest,
     (scheme = "http:" \/ scheme = "ws:") /\
     fixUrl_schemed s = scheme +:+ "//" +:+ rest) /\
  (forall s scheme rest,
     scheme = "http:" \/ scheme = "ws:" ->
     fixUrl_schemed s = scheme +:+ "//" +:+ rest ->
     (fixUrl s = scheme <-> exists k, rest = slashes k) /\
     (fixUrl s <> scheme ->
      strings.TrimRight rest "/" <> "" /\
      (forall y, strings.TrimRight rest "/" <> y +:+ "/") /\
      fixUrl s = scheme +:+ "//" +:+ strings.TrimRight rest "/")).
Proof.
  split.
  - intros s. destruct (fixUrl_schemed_prefix s) as [rest [E | E]].
    + exists "http:", rest. split; [left; reflexivity | exact E].
    + exists "ws:", rest. split; [right; reflexivity | exact E].
  - intros s scheme rest Hscheme E. rewrite fixUrl_unfold, E.
    rewrite <- TrimRight_empty_iff.
    assert (forall y, strings.TrimRight rest "/" <> y +:+ "/") as Hnoslash
      by (intros y; apply TrimRight_no_suffix; reflexivity).
    destruct Hscheme as [-> | ->].
    + change ("http:" +:+ "//" +:+ rest) with ("http://" +:+ rest). rewrite TrimRight_http.
      destruct (strings.TrimRight rest "/") as [|a x] eqn:Ex.
      * split; [split; reflexivity | intros H; contradiction].
      * split; [split; intros H; discriminate H|].
        intros _. split; [discriminate|]. split; [exact Hnoslash | reflexivity].
    + change ("ws:" +:+ "//" +:+ rest) with ("ws://" +:+ rest). rewrite TrimRight_ws.
      destruct (strings.TrimRight rest "/") as [|a x] eqn:Ex.
      * split; [split; reflexivity | intros H; contradiction].
      * split; [split; intros H; discriminate H|].
        intros _. split; [discriminate|]. split; [exact Hnoslash | reflexivity].
Qed.

Lemma fixUrl_results_witness : fixUrl " ws://// " = "ws:".
Proof.
  apply (proj1 (proj2 fixUrl_results " ws://// " "ws:" "//" (or_intror eq_refl) eq_refl)).
  exists 2%nat. reflexivity.
Defined.

(** ** More on the zones of [main] *)

Lemma HasPrefix_app_mono (x p b : string) :
  strings.HasPrefix x p = true -> strings.HasPrefix (x +:+ b) p = true.
Proof.
  intros H. destruct (HasPrefix_inv _ _ H) as [y ->].
  rewrite append_assoc. apply HasPrefix_app.
Qed.

Lemma Index_lower_bound (s sep : string) : -1 <= strings.Index s sep.
Proof.
  destruct s as [|c s]; simpl.
  - destruct (strings.HasPrefix "" sep); lia.
  - destruct (strings.HasPrefix (String c s) sep); [lia|].
    destruct (strings.Index s sep <? 0) eqn:E; [lia|]. apply Z.ltb_ge in E. lia.
Qed.

Lemma Index_cons (c : ascii) (r sep : string) :
  strings.Index (String c r) sep =
    if strings.HasPrefix (String c r) sep then 0
    else if strings.Index r sep <? 0 then -1 else strings.Index r sep + 1.
Proof. reflexivity. Qed.

Lemma slice_cons (c : ascii) (r : string) (i : Z) :
  0 <= i -> slice (String c r) 0 (i + 1) = String c (slice r 0 i).
Proof.
  intros Hi. unfold slice. replace (Z.to_nat (i + 1 - 0)) with (S (Z.to_nat (i - 0))) by lia.
  reflexivity.
Qed.

Lemma slice_from_cons (c : ascii) (r : string) (i : Z) :
  0 <= i -> slice_from (String c r) (i + 1) = slice_from r i.
Proof.
  intros Hi. unfold slice_from. replace (Z.to_nat (i + 1)) with (S (Z.to_nat i)) by lia.
  reflexivity.
Qed.

Lemma slice_from_prefix (p y : string) : slice_from (p +:+ y) (len p) = y.
Proof.
  unfold slice_from, len. rewrite Nat2Z.id.
  rewrite <- (Nat.add_0_r (String.length p)). rewrite drop_bytes_app. reflexivity.
Qed.

(** [Index] finds an occurrence: the text is what stands before it, the
    separator, and what stands after it. *)
Lemma Index_split (s sep : string) :
  0 <= strings.Index s sep ->
  s = slice s 0 (strings.Index s sep) +:+ sep
        +:+ slice_from s (strings.Index s sep + len sep).
Proof.
  induction s as [|c r IH]; intros H.
  - simpl in *. destruct sep; [reflexivity | simpl in H; lia].
  - rewrite Index_cons in *. destruct (strings.HasPrefix (String c r) sep) eqn:Hp.
    + destruct (HasPrefix_inv _ _ Hp) as [y Hy]. rewrite Hy at 1.
      rewrite Z.add_0_l, Hy, slice_from_prefix.
      unfold slice. simpl Z.to_nat.
      destruct (sep +:+ y); reflexivity.
    + destruct (strings.Index r sep <? 0) eqn:E; [lia|]. apply Z.ltb_ge in E.
      pose proof (len_nonneg sep).
      rewrite slice_cons by assumption.
      replace (strings.Index r sep + 1 + len sep) with (strings.Index r sep + len sep + 1) by lia.
      rewrite slice_from_cons by lia. rewrite append_cons. f_equal. apply IH, E.
Qed.

(** And it is the first one: the separator does not occur before it. *)
Lemma Index_first (s sep : string) :
  sep <> "" -> 0 <= strings.Index s sep ->
  strings.Index (slice s 0 (strings.Index s sep)) sep = -1.
Proof.
  intros Hsep. induction s as [|c r IH]; intros H.
  - simpl in *. destruct sep; [congruence | simpl in H; lia].
  - rewrite Index_cons in *. destruct (strings.HasPrefix (String c r) sep) eqn:Hp.
    + unfold slice. simpl. destruct sep; [congruence | reflexivity].
    + destruct (strings.Index r sep <? 0) eqn:E; [lia|]. apply Z.ltb_ge in E.
      rewrite slice_cons by assumption. rewrite Index_cons, (IH E).
      destruct (strings.HasPrefix (String c (slice r 0 (strings.Index r sep))) sep) eqn:Hq;
        [|reflexivity].
      destruct (slice_0_prefix r (strings.Index r sep)) as [b Hb].
      apply (HasPrefix_app_mono _ _ b) in Hq. rewrite append_cons, <- Hb in Hq. congruence.
Qed.

Lemma cut_Some (s sep a b : string) :
  sep <> "" -> strings.cut s sep = Some (a, b) ->
  s = a +:+ sep +:+ b /\ strings.Index a sep = -1.
Proof.
  intros Hsep. unfold strings.cut.
  destruct (strings.Index s sep <? 0) eqn:E; [discriminate|]. apply Z.ltb_ge in E.
  intros [= <- <-]. split; [apply Index_split, E | apply Index_first; assumption].
Qed.

Lemma cut_None (s sep : string) :
  strings.cut s sep = None -> strings.Index s sep = -1.
Proof.
  unfold strings.cut. destruct (strings.Index s sep <? 0) eqn:E; [|discriminate].
  apply Z.ltb_lt in E. pose proof (Index_lower_bound s sep). lia.
Qed.

(** X5. Each zone is read without loss: it is the domain, an arrow and the
    target, the domain holding no arrow, or it holds no arrow at all and is
    the domain, the target being the default. Nothing is trimmed from the
    domain. *)
Theorem zone_step_reads_zone (backend : string) (g : Globals) (zone : string) :
  exists d t,
    zone_step backend g zone =
      Some {| domain_backend := <[d := fixUrl t]> (domain_backend g);
              whitelisted := whitelisted g ++ [d] |} /\
    strings.Index d "->" = -1 /\
    (zone = d +:+ "->" +:+ t \/ (zone = d /\ t = backend)).
Proof.
  rewrite zone_step_declare. unfold zone_decl.
  destruct (strings.cut zone "->") as [[d t]|] eqn:E.
  - assert ("->" <> "") as Hsep by discriminate.
    destruct (cut_Some _ _ _ _ Hsep E) as [Hz Hd].
    exists d, t. split; [reflexivity|]. split; [exact Hd | left; exact Hz].
  - exists zone, backend. split; [reflexivity|]. split; [apply cut_None, E | right; split; reflexivity].
Qed.

(** X6. [main] never fails on an index: it prints the usage exactly when
    [-domains] is empty and otherwise fills the registry. *)
Theorem main_never_panics (domains backend : string) :
  main domains backend <> Panicked /\
  (main domains backend = Usage <-> domains = "") /\
  (domains <> "" -> exists g, main domains backend = Configured g).
Proof.
  destruct (String.eqb_spec domains "") as [->|Hne].
  - split; [discriminate|]. split; [split; reflexivity|]. congruence.
  - rewrite (main_configured _ _ Hne). split; [discriminate|].
    split; [split; [discriminate | contradiction]|]. intros _. eexists. reflexivity.
Qed.

Lemma main_never_panics_witness :
  exists g, main " a.com ->,->,," "" = Configured g.
Proof. apply (main_never_panics " a.com ->,->,," ""). discriminate. Defined.

Lemma declare_all_dom (ds : list (string * string)) (g : Globals) :
  dom (domain_backend (fold_left declare ds g)) =
    dom (domain_backend g) ∪ list_to_set (map fst ds).
Proof.
  revert g. induction ds as [|[d t] ds IH]; intros g; simpl.
  - rewrite union_empty_r_L. reflexivity.
  - rewrite IH. simpl. rewrite dom_insert_L.
    rewrite (union_comm_L {[d]} (dom (domain_backend g))), <- union_assoc_L. reflexivity.
Qed.

(** X7. The white list and the registry hold the same domains: a name is
    white-listed exactly when the registry has a target for it. *)
Theorem whitelist_is_registry_domain (domains backend : string) (g : Globals) :
  main domains backend = Configured g ->
  dom (domain_backend g) = list_to_set (whitelisted g) /\
  (forall d, d ∈ whitelisted g <-> is_Some (domain_backend g !! d)).
Proof.
  unfold main. destruct (String.eqb domains ""); [discriminate|].
  rewrite zone_loop_declare. intros [= <-].
  assert (dom (domain_backend
                 (fold_left declare (map (zone_decl backend) (strings.Split domains ",")) globals0))
          = list_to_set (whitelisted
                 (fold_left declare (map (zone_decl backend) (strings.Split domains ",")) globals0)))
    as Hdom.
  { rewrite declare_all_dom, declare_all_whitelisted. simpl.
    rewrite dom_empty_L, union_empty_l_L. reflexivity. }
  split; [exact Hdom|]. intros d. rewrite <- elem_of_dom, Hdom, elem_of_list_to_set.
  reflexivity.
Qed.

Lemma whitelist_is_registry_domain_witness :
  dom (domain_backend demoGlobals) = list_to_set (whitelisted demoGlobals).
Proof. apply (whitelist_is_registry_domain _ _ _ demo_configured). Defined.

(** ** More on the handler *)

Section HandlerFacts.

Context `{lib : GoLib}.

Lemma handler_registered_nil (g : Globals) (r : http.Request) (t : string) :
  domain_backend g !! port_stripped (http.Host r) = Some t ->
  http.URL r = None ->
  handler g r = (rewritten r, Panic).
Proof.
  intros Hreg Hurl. unfold handler. rewrite before_colon_eq.
  cbn [http.Host http.set_Host]. rewrite Hreg.
  cbn [http.RemoteAddr http.set_Header http.Header http.set_Host http.URL http.Host].
  rewrite before_colon_eq, Hurl.
  unfold rewritten, forwarded, http.values.
  rewrite lookup_insert_ne by discriminate. reflexivity.
Qed.

(** The three ways through the handler. *)
Lemma handler_cases (g : Globals) (r : http.Request) :
  (domain_backend g !! port_stripped (http.Host r) = None /\
   handler g r =
     (http.set_Host (port_stripped (http.Host r)) r,
      Replied (http.Error (port_stripped (http.Host r) +:+ ": not found")
                 http.StatusNotImplemented))) \/
  (is_Some (domain_backend g !! port_stripped (http.Host r)) /\
   http.URL r = None /\ handler g r = (rewritten r, Panic)) \/
  (is_Some (domain_backend g !! port_stripped (http.Host r)) /\
   is_Some (http.URL r) /\ fst (handler g r) = rewritten r /\
   exists u, snd (handler g r) = Tunnel u \/ exists proxy, snd (handler g r) = Forward u proxy).
Proof.
  destruct (domain_backend g !! port_stripped (http.Host r)) as [t|] eqn:Hreg.
  - right. destruct (http.URL r) as [ru|] eqn:Hurl.
    + right. split; [eauto|]. split; [eauto|].
      rewrite (handler_registered g r t ru Hreg Hurl). split; [reflexivity|].
      eexists. cbn [snd]. destruct (String.eqb _ "websocket"); [left | right; eexists]; reflexivity.
    + left. split; [eauto|]. split; [reflexivity|]. apply (handler_registered_nil g r t Hreg Hurl).
  - left. split; [reflexivity|]. apply handler_unregistered, Hreg.
Qed.

(** X9. Of the request the handler changes the host and, for a registered
    host, the headers; nothing else. The host becomes the text before its
    first colon on every path, the 501 one included. *)
Theorem handler_keeps_request (g : Globals) (r : http.Request) :
  let r' := fst (handler g r) in
  http.Host r' = port_stripped (http.Host r) /\
  http.Method r' = http.Method r /\
  http.URL r' = http.URL r /\
  http.Proto r' = http.Proto r /\
  http.Body r' = http.Body r /\
  http.RemoteAddr r' = http.RemoteAddr r /\
  (domain_backend g !! port_stripped (http.Host r) = None -> http.Header r' = http.Header r).
Proof.
  destruct (handler_cases g r) as [[Hn E] | [(Hs & Hu & E) | (Hs & Hu & E & _)]];
    cbv zeta; rewrite E; cbn [fst]; repeat split; try reflexivity.
  - intros Hn. rewrite Hn in Hs. destruct Hs as [x Hx]. discriminate.
  - intros Hn. rewrite Hn in Hs. destruct Hs as [x Hx]. discriminate.
Qed.

(** X10. For a registered host exactly two header keys change:
    [X-Forwarded-Proto] holds [https] alone whatever came in, and
    [X-Forwarded-For] holds what came in followed by the text of the remote
    address before its first colon, which for [ip:port] with no colon in
    [ip] is the [ip]. Every other key keeps its values. *)
Theorem handler_rewrites_two_headers (g : Globals) (r : http.Request) (t : string)
    (ru : url.URL) :
  domain_backend g !! port_stripped (http.Host r) = Some t ->
  http.URL r = Some ru ->
  let h' := http.Header (fst (handler g r)) in
  h' !! "X-Forwarded-Proto" = Some ["https"] /\
  h' !! "X-Forwarded-For" =
    Some (http.values (http.Header r) "X-Forwarded-For" ++ [port_stripped (http.RemoteAddr r)]) /\
  (forall key, key <> "X-Forwarded-Proto" -> key <> "X-Forwarded-For" ->
               h' !! key = http.Header r !! key) /\
  (forall ip port, strings.inSet ":" ip = false ->
                   http.RemoteAddr r = ip +:+ ":" +:+ port ->
                   port_stripped (http.RemoteAddr r) = ip).
Proof.
  intros Hreg Hurl h'. subst h'. rewrite (handler_registered g r t ru Hreg Hurl).
  cbn [fst rewritten http.Header http.set_Header]. unfold forwarded.
  split; [rewrite lookup_insert_ne by discriminate; apply lookup_insert_eq|].
  split; [apply lookup_insert_eq|]. split.
  - intros key H1 H2. rewrite !lookup_insert_ne by congruence. reflexivity.
  - intros ip port Hip ->. apply port_stripped_host_port, Hip.
Qed.

(** X11. A port in the [Host] of the request changes nothing: [host:port]
    is handled as [host] is, whatever the port. *)
Theorem handler_ignores_port (g : Globals) (r : http.Request) (h p : string) :
  strings.inSet ":" h = false ->
  handler g (http.set_Host (h +:+ ":" +:+ p) r) = handler g (http.set_Host h r).
Proof.
  intros Hh. unfold handler. rewrite !before_colon_eq.
  cbn [http.Host http.set_Host].
  rewrite (port_stripped_host_port h p Hh), (port_stripped_bare h Hh).
  reflexivity.
Qed.

(** X12. Only the first value of [Upgrade] counts: a request without the
    header, or with an empty list under it, is forwarded, and with values
    [v :: vs] the route is the one that [v] alone decides. *)
Theorem route_on_first_upgrade_value (g : Globals) (r : http.Request) (t : string)
    (ru : url.URL) :
  domain_backend g !! port_stripped (http.Host r) = Some t ->
  http.URL r = Some ru ->
  let u := url_Parse (upstream t ru) in
  let proxy :=
    mkReverseProxy (director (Director (NewSingleHostReverseProxy u)) (rewritten r) u) in
  (http.Header r !! "Upgrade" = None \/ http.Header r !! "Upgrade" = Some [] ->
   snd (handler g r) = Forward u proxy) /\
  (forall v vs, http.Header r !! "Upgrade" = Some (v :: vs) ->
     snd (handler g r) =
       if String.eqb (strings.ToLower To_LowerCase v) "websocket"
       then Tunnel u else Forward u proxy).
Proof.
  intros Hreg Hurl u proxy. rewrite (handler_registered g r t ru Hreg Hurl).
  cbn [snd]. fold u proxy. unfold http.Get, http.values. split.
  - intros [-> | ->]; reflexivity.
  - intros v vs ->. reflexivity.
Qed.

End HandlerFacts.

Lemma route_on_first_upgrade_value_witness :
  exists proxy,
    snd (handler (lib := demoLib) demoGlobals
           (http.set_Header (<["Upgrade" := ["h2c"; "websocket"]]> ∅) page_request))
    = Forward (demo_Parse "http://localhost:8080/foo?x=1") proxy.
Proof.
  set (r := http.set_Header (<["Upgrade" := ["h2c"; "websocket"]]> ∅) page_request).
  assert (domain_backend demoGlobals !! port_stripped (http.Host r)
          = Some "http://localhost:8080") as Hreg by (vm_compute; reflexivity).
  assert (http.URL r = Some page_url) as Hurl by (vm_compute; reflexivity).
  pose proof (proj2 (route_on_first_upgrade_value (lib := demoLib) demoGlobals r
                       "http://localhost:8080" page_url Hreg Hurl)
                "h2c" ["websocket"]) as H.
  assert (String.eqb (strings.ToLower (To_LowerCase (GoLib := demoLib)) "h2c") "websocket"
          = false) as E by (vm_compute; reflexivity).
  rewrite E in H. eexists. rewrite H by (vm_compute; reflexivity).
  reflexivity.
Defined.

Lemma handler_keeps_request_witness :
  http.Header (fst (handler (lib := demoLib) demoGlobals stray_request)) = http.Header stray_request.
Proof.
  apply (handler_keeps_request (lib := demoLib) demoGlobals stray_request).
  vm_compute. reflexivity.
Defined.

Lemma handler_rewrites_two_headers_witness :
  http.Header (fst (handler (lib := demoLib) demoGlobals page_request)) !! "X-Forwarded-Proto"
  = Some ["https"].
Proof.
  apply (handler_rewrites_two_headers (lib := demoLib) demoGlobals page_request
           "http://localhost:8080" page_url page_registered page_has_url).
Defined.

Lemma handler_ignores_port_witness :
  handler (lib := demoLib) demoGlobals
    (http.set_Host ("site.com" +:+ ":" +:+ "8443") page_request)
  = handler (lib := demoLib) demoGlobals (http.set_Host "site.com" page_request).
Proof.
  apply handler_ignores_port. reflexivity.
Defined.

Lemma Index_byte_neg (c : ascii) (s : string) :
  strings.Index s (String c "") = -1 -> strings.inSet c s = false.
Proof.
  induction s as [|a s IH]; [reflexivity|].
  rewrite Index_cons. cbn [strings.HasPrefix strings.inSet].
  destruct (Ascii.eqb a c) eqn:Eac; cbn [andb]; [discriminate|].
  rewrite Ascii.eqb_sym, Eac. cbn [orb].
  pose proof (Index_lower_bound s (String c "")).
  destruct (strings.Index s (String c "") <? 0) eqn:E.
  - apply Z.ltb_lt in E. intros _. apply IH. lia.
  - apply Z.ltb_ge in E. lia.
Qed.

Lemma port_stripped_no_colon (s : string) : strings.inSet ":" (port_stripped s) = false.
Proof.
  unfold port_stripped. destruct (strings.cut s ":") as [[a b]|] eqn:E.
  - assert (":" <> "") as Hsep by discriminate.
    destruct (cut_Some _ _ _ _ Hsep E) as [_ Ha]. apply Index_byte_neg, Ha.
  - apply Index_byte_neg, cut_None, E.
Qed.

(** X13. The key that the handler looks up never holds a colon, and
    stripping it again changes nothing. So a domain declared with a colon in
    it, a port for one, is in the registry and on the white list but no
    request is ever dispatched to it. *)
Theorem colon_domain_unreachable `{lib : GoLib} (g : Globals) (r : http.Request) :
  strings.inSet ":" (http.Host (fst (handler g r))) = false /\
  port_stripped (port_stripped (http.Host r)) = port_stripped (http.Host r) /\
  (forall d, strings.inSet ":" d = true -> http.Host (fst (handler g r)) <> d).
Proof.
  assert (http.Host (fst (handler g r)) = port_stripped (http.Host r)) as ->.
  { destruct (handler_cases g r) as [[_ E] | [(_ & _ & E) | (_ & _ & E & _)]];
      rewrite E; reflexivity. }
  pose proof (port_stripped_no_colon (http.Host r)) as H.
  split; [exact H|]. split; [apply port_stripped_bare, H|].
  intros d Hd E. rewrite E in H. congruence.
Qed.

Lemma colon_domain_unreachable_witness :
  http.Host (fst (handler (lib := demoLib) demoGlobals stray_request)) <> "evil.test:443".
Proof.
  apply (colon_domain_unreachable (lib := demoLib) demoGlobals stray_request). reflexivity.
Defined.

(** ** More on the tunnel *)

Section MoreTunnelFacts.

Context `{lib : GoLib}.

(** X14. After a dial that succeeded, a writer that cannot be hijacked
    and a hijack that fails both end in a 500 answer, the first with a fixed
    message and without calling [Hijack], the second with the text of the
    error; the backend connection is closed and nothing is copied. *)
Theorem hijack_failure_500 (W : World) (u : url.URL) (w : ResponseWriter)
    (r : http.Request) (backConn : Conn) :
  net_Dial W "tcp" (url.Host u) = inl backConn ->
  (Hijacker w = None ->
   NewWebsocketReverseProxy W (Some u) w r =
     [Dial "tcp" (url.Host u);
      Respond (http.Error "webserver doesn't support hijacking" 500);
      Close backConn]) /\
  (forall err, Hijacker w = Some (inr err) ->
   NewWebsocketReverseProxy W (Some u) w r =
     [Dial "tcp" (url.Host u); Hijack; Respond (http.Error err 500); Close backConn]).
Proof.
  intros Hdial. unfold NewWebsocketReverseProxy. rewrite Hdial.
  split; [intros -> | intros err ->]; reflexivity.
Qed.

(** X15. A tunnel that is set up: the dial, the hijack, the copy towards
    the backend started on the replayed block, then the body, then the
    client connection, the copy towards the client, and the two closes, the
    client first. The block is the request line, the [Host] line, the header
    lines and an empty line, each ended by a line feed. *)
Theorem tunnel_established (W : World) (u : url.URL) (w : ResponseWriter)
    (r : http.Request) (ru : url.URL) (backConn clientConn : Conn) :
  net_Dial W "tcp" (url.Host u) = inl backConn ->
  Hijacker w = Some (inl clientConn) ->
  http.URL r = Some ru ->
  NewWebsocketReverseProxy W (Some u) w r =
    [Dial "tcp" (url.Host u); Hijack;
     GoCopy backConn
       [StringReader
          ((http.Method r +:+ " " +:+ RequestURI ru +:+ " " +:+ http.Proto r +:+ LF)
           +:+ ("Host: " +:+ http.Host r +:+ LF)
           +:+ concat_all (lines_of (range_Header W (http.Header r)))
           +:+ LF);
        BodyReader (http.Body r); ConnReader clientConn];
     Copy clientConn backConn; Close clientConn; Close backConn].
Proof.
  intros Hdial Hhij Hurl. unfold NewWebsocketReverseProxy.
  rewrite Hdial, Hhij, Hurl, replay_message_shape. reflexivity.
Qed.

(** X16. Every connection that the tunnel holds is closed when it
    returns: the trace ends with the close of the backend connection once
    the dial has succeeded, and a connection is closed exactly when it is
    that one or the one that [Hijack] gave. *)
Theorem tunnel_closes_connections (W : World) (u : url.URL) (w : ResponseWriter)
    (r : http.Request) (backConn : Conn) :
  net_Dial W "tcp" (url.Host u) = inl backConn ->
  let trace := NewWebsocketReverseProxy W (Some u) w r in
  last trace = Some (Close backConn) /\
  (forall c, Close c ∈ trace <-> c = backConn \/ Hijacker w = Some (inl c)).
Proof.
  intros Hdial trace. subst trace. unfold NewWebsocketReverseProxy. rewrite Hdial.
  destruct (Hijacker w) as [[clientConn | err] |]; [destruct (http.URL r)| |];
    (split; [reflexivity|]); intros c;
    rewrite ?elem_of_cons, elem_of_nil; split;
    try (intros H; decompose [or] H; try discriminate; try contradiction);
    try (match goal with H : Close _ = Close _ |- _ => injection H as -> end);
    try (match goal with H : Some _ = Some _ |- _ => injection H as -> end);
    try (match goal with H : None = Some _ |- _ => discriminate H end);
    subst; auto 10.
Qed.

(** X17. The tunnel reads the upstream URL for its host alone: two targets
    with the same host give the same run, whatever their scheme, path and
    query. In particular a path in the configured target is not applied to
    tunnelled requests. *)
Theorem tunnel_uses_host_only (W : World) (u u' : url.URL) (w : ResponseWriter)
    (r : http.Request) :
  url.Host u = url.Host u' ->
  NewWebsocketReverseProxy W (Some u) w r = NewWebsocketReverseProxy W (Some u') w r.
Proof. intros H. unfold NewWebsocketReverseProxy. rewrite H. reflexivity. Qed.

Lemma lines_of_elem (hs : list (string * list string)) (k v : string) (vs : list string) :
  (k, vs) ∈ hs -> v ∈ vs -> header_line k v ∈ lines_of hs.
Proof.
  intros Hk Hv. unfold lines_of. apply list_elem_of_In, in_flat_map.
  exists (k, vs). split; [apply list_elem_of_In, Hk|].
  apply in_map, list_elem_of_In, Hv.
Qed.

(** X18. Whatever the order in which the header map is walked, as long as
    it is a walk of the map, the block that [replay_message] builds is the
    request line, the [Host] line, the header lines one after the other and
    an empty line, where the header lines are those of the map in some
    order: one line for each value of each key, no more. *)
Theorem replay_header_lines (W : World) (r : http.Request) (ru : url.URL) :
  range_Header W (http.Header r) ≡ₚ map_to_list (http.Header r) ->
  exists lines,
    replay_message W r ru =
      (http.Method r +:+ " " +:+ RequestURI ru +:+ " " +:+ http.Proto r +:+ LF)
      +:+ ("Host: " +:+ http.Host r +:+ LF)
      +:+ concat_all lines +:+ LF /\
    lines ≡ₚ lines_of (map_to_list (http.Header r)) /\
    length lines =
      list_sum (map (fun kv => length (snd kv)) (map_to_list (http.Header r))) /\
    (forall k vs v, http.Header r !! k = Some vs -> v ∈ vs -> header_line k v ∈ lines).
Proof.
  intros Hperm. exists (lines_of (range_Header W (http.Header r))).
  split; [apply replay_message_shape|].
  split; [apply lines_of_perm, Hperm|]. split.
  - rewrite (Permutation_length (lines_of_perm _ _ Hperm)). apply lines_of_length.
  - intros k vs v Hk Hv. apply (lines_of_elem _ k v vs); [|exact Hv].
    rewrite Hperm. apply elem_of_map_to_list, Hk.
Qed.

End MoreTunnelFacts.

(** ** The handler as a whole *)

Section ServeFacts.

Context `{lib : GoLib}.

Lemma serve_upgrade (W : World) (g : Globals) (w : ResponseWriter) (r : http.Request)
    (t : string) (ru : url.URL) :
  domain_backend g !! port_stripped (http.Host r) = Some t ->
  http.URL r = Some ru ->
  eq_nocase (http.Get (http.Header r) "Upgrade") "websocket" = true ->
  serve W g w r =
    (rewritten r,
     Tunnelled (NewWebsocketReverseProxy W (url_Parse (upstream t ru)) w (rewritten r))).
Proof.
  intros Hreg Hurl Hup. unfold serve. rewrite (handler_registered g r t ru Hreg Hurl).
  cbv zeta. rewrite (ToLower_eq_nocase _ _ "websocket") by auto. reflexivity.
Qed.

(** X19. An upgrade request for a registered host whose backend cannot be
    reached: the handler dials the host of the upstream URL, answers 500
    with the text of the dial error, and that is all. *)
Theorem serve_backend_down (W : World) (g : Globals) (w : ResponseWriter)
    (r : http.Request) (t : string) (ru u : url.URL) (err : string) :
  domain_backend g !! port_stripped (http.Host r) = Some t ->
  http.URL r = Some ru ->
  eq_nocase (http.Get (http.Header r) "Upgrade") "websocket" = true ->
  url_Parse (upstream t ru) = Some u ->
  net_Dial W "tcp" (url.Host u) = inr err ->
  serve W g w r =
    (rewritten r,
     Tunnelled [Dial "tcp" (url.Host u);
                Respond (http.Error err http.StatusInternalServerError)]).
Proof.
  intros Hreg Hurl Hup Hparse Hdial.
  rewrite (serve_upgrade W g w r t ru Hreg Hurl Hup), Hparse.
  unfold NewWebsocketReverseProxy. rewrite Hdial. reflexivity.
Qed.

(** X20. What the backend of a tunnel is sent: the request line with the
    request URI as it came (its leading slashes are not touched), a [Host]
    line with the host stripped of its port, and among the header lines the
    [X-Forwarded-Proto: https] and [X-Forwarded-For] lines that the handler
    has just set, next to every header that came in under another key. *)
Theorem serve_replays_rewritten_request (W : World) (g : Globals) (w : ResponseWriter)
    (r : http.Request) (t : string) (ru u : url.URL) (backConn clientConn : Conn) :
  domain_backend g !! port_stripped (http.Host r) = Some t ->
  http.URL r = Some ru ->
  eq_nocase (http.Get (http.Header r) "Upgrade") "websocket" = true ->
  url_Parse (upstream t ru) = Some u ->
  net_Dial W "tcp" (url.Host u) = inl backConn ->
  Hijacker w = Some (inl clientConn) ->
  range_Header W (http.Header (rewritten r)) ≡ₚ map_to_list (http.Header (rewritten r)) ->
  exists lines,
    serve W g w r =
      (rewritten r,
       Tunnelled
         [Dial "tcp" (url.Host u); Hijack;
          GoCopy backConn
            [StringReader
               ((http.Method r +:+ " " +:+ RequestURI ru +:+ " " +:+ http.Proto r +:+ LF)
                +:+ ("Host: " +:+ port_stripped (http.Host r) +:+ LF)
                +:+ concat_all lines +:+ LF);
             BodyReader (http.Body r); ConnReader clientConn];
          Copy clientConn backConn; Close clientConn; Close backConn]) /\
    header_line "X-Forwarded-Proto" "https" ∈ lines /\
    header_line "X-Forwarded-For" (port_stripped (http.RemoteAddr r)) ∈ lines /\
    (forall k vs v, k <> "X-Forwarded-Proto" -> k <> "X-Forwarded-For" ->
                    http.Header r !! k = Some vs -> v ∈ vs -> header_line k v ∈ lines).
Proof.
  intros Hreg Hurl Hup Hparse Hdial Hhij Hperm.
  exists (lines_of (range_Header W (http.Header (rewritten r)))).
  split; [|split; [|split]].
  - rewrite (serve_upgrade W g w r t ru Hreg Hurl Hup), Hparse.
    unfold NewWebsocketReverseProxy. rewrite Hdial, Hhij.
    change (http.URL (rewritten r)) with (http.URL r). rewrite Hurl.
    rewrite replay_message_shape. reflexivity.
  - apply (lines_of_elem _ _ _ ["https"]); [|apply list_elem_of_here].
    rewrite Hperm. apply elem_of_map_to_list.
    cbn [rewritten http.Header http.set_Header]. unfold forwarded.
    rewrite lookup_insert_ne by discriminate. apply lookup_insert_eq.
  - apply (lines_of_elem _ _ _
             (http.values (http.Header r) "X-Forwarded-For"
              ++ [port_stripped (http.RemoteAddr r)])).
    + rewrite Hperm. apply elem_of_map_to_list.
      cbn [rewritten http.Header http.set_Header]. unfold forwarded. apply lookup_insert_eq.
    + apply elem_of_app. right. apply list_elem_of_here.
  - intros k vs v H1 H2 Hk Hv. apply (lines_of_elem _ _ _ vs); [|exact Hv].
    rewrite Hperm. apply elem_of_map_to_list.
    cbn [rewritten http.Header http.set_Header]. unfold forwarded.
    rewrite !lookup_insert_ne by congruence. exact Hk.
Qed.

(** X21. The error of [url.Parse] is dropped: when the upstream text of an
    upgrade request does not parse, the tunnel is entered with a nil URL and
    fails on it before any dial or answer. *)
Theorem serve_unparsable_upstream (W : World) (g : Globals) (w : ResponseWriter)
    (r : http.Request) (t : string) (ru : url.URL) :
  domain_backend g !! port_stripped (http.Host r) = Some t ->
  http.URL r = Some ru ->
  eq_nocase (http.Get (http.Header r) "Upgrade") "websocket" = true ->
  url_Parse (upstream t ru) = None ->
  serve W g w r = (rewritten r, Tunnelled [NilPanic]).
Proof.
  intros Hreg Hurl Hup Hparse.
  rewrite (serve_upgrade W g w r t ru Hreg Hurl Hup), Hparse. reflexivity.
Qed.

End ServeFacts.

(** ** The forward route and the failures on a nil pointer *)

Section ForwardFacts.

Context `{lib : GoLib}.

Lemma tunnel_trace_no_panic (W : World) (u ru : url.URL) (w : ResponseWriter)
    (r : http.Request) :
  http.URL r = Some ru -> NilPanic ∉ NewWebsocketReverseProxy W (Some u) w r.
Proof.
  intros Hurl. unfold NewWebsocketReverseProxy. rewrite Hurl.
  destruct (net_Dial W "tcp" (url.Host u)) as [backConn | err];
    [destruct (Hijacker w) as [[clientConn | err] |]|];
    intros Hin;
    repeat (apply elem_of_cons in Hin as [Hin|Hin]; [discriminate|]);
    apply elem_of_nil in Hin; exact Hin.
Qed.

Lemma serve_forward (W : World) (g : Globals) (w : ResponseWriter) (r : http.Request)
    (t : string) (ru : url.URL) :
  domain_backend g !! port_stripped (http.Host r) = Some t ->
  http.URL r = Some ru ->
  String.eqb (strings.ToLower To_LowerCase (http.Get (http.Header r) "Upgrade")) "websocket"
    = false ->
  serve W g w r =
    (rewritten r,
     match url_Parse (upstream t ru) with
     | Some u =>
         Proxied (http.set_URL (Some u)
                    (http.set_Host (port_stripped (http.Host r))
                       (rewriteRequestURL u (rewritten r))))
     | None => Crashed
     end).
Proof.
  intros Hreg Hurl Hup. unfold serve. rewrite (handler_registered g r t ru Hreg Hurl).
  cbv zeta. rewrite Hup. cbn [Director]. unfold director, NewSingleHostReverseProxy.
  cbn [Director]. change (http.URL (rewritten r)) with (http.URL r). rewrite Hurl.
  destruct (url_Parse (upstream t ru)); reflexivity.
Qed.

(** X8. The handler, followed to its end, fails on a nil pointer exactly
    when the host is registered and either the request has no URL or the
    upstream text does not parse (the error of [url.Parse] is dropped and the
    nil URL reaches the tunnel or the default director). It never fails for
    a host that is not registered, nor for a request with a URL whose
    upstream text parses. *)
Theorem serve_crashes_exactly (W : World) (g : Globals) (w : ResponseWriter)
    (r : http.Request) :
  (crashed (snd (serve W g w r)) <->
   exists t, domain_backend g !! port_stripped (http.Host r) = Some t /\
             (http.URL r = None \/
              exists ru, http.URL r = Some ru /\ url_Parse (upstream t ru) = None)) /\
  (domain_backend g !! port_stripped (http.Host r) = None -> ~ crashed (snd (serve W g w r))) /\
  (forall t ru u,
     domain_backend g !! port_stripped (http.Host r) = Some t ->
     http.URL r = Some ru -> url_Parse (upstream t ru) = Some u ->
     ~ crashed (snd (serve W g w r))).
Proof.
  assert (crashed (snd (serve W g w r)) <->
          exists t, domain_backend g !! port_stripped (http.Host r) = Some t /\
                    (http.URL r = None \/
                     exists ru, http.URL r = Some ru /\ url_Parse (upstream t ru) = None)) as Hiff.
  { destruct (domain_backend g !! port_stripped (http.Host r)) as [t|] eqn:Hreg.
    - destruct (http.URL r) as [ru|] eqn:Hurl.
      + destruct (String.eqb (strings.ToLower To_LowerCase (http.Get (http.Header r) "Upgrade"))
                    "websocket") eqn:Hup.
        * unfold serve. rewrite (handler_registered g r t ru Hreg Hurl).
          cbv zeta. rewrite Hup. cbn [snd crashed].
          destruct (url_Parse (upstream t ru)) as [u|] eqn:Hparse.
          -- split.
             ++ intros Hin. exfalso. revert Hin. apply (tunnel_trace_no_panic W u ru). exact Hurl.
             ++ intros (t' & [= <-] & [H | (ru' & [= <-] & H)]); congruence.
          -- split.
             ++ intros _. exists t. split; [reflexivity|]. right. exists ru. split; reflexivity || assumption.
             ++ intros _. apply list_elem_of_here.
        * rewrite (serve_forward W g w r t ru Hreg Hurl Hup). cbn [snd].
          destruct (url_Parse (upstream t ru)) as [u|] eqn:Hparse; cbn [crashed].
          -- split; [contradiction|].
             intros (t' & [= <-] & [H | (ru' & [= <-] & H)]); congruence.
          -- split; [|intros _; exact I]. intros _. exists t. split; [reflexivity|].
             right. exists ru. split; reflexivity || assumption.
      + unfold serve. rewrite (handler_registered_nil g r t Hreg Hurl). cbn [snd crashed].
        split; [|intros _; exact I]. intros _. exists t. split; [reflexivity | left; reflexivity].
    - unfold serve. rewrite (handler_unregistered g r Hreg). cbn [snd crashed].
      split; [contradiction|]. intros (t & H & _). discriminate. }
  split; [exact Hiff|]. split.
  - intros Hnone Hc. apply Hiff in Hc as (t & H & _). congruence.
  - intros t ru u Hreg Hurl Hparse Hc.
    apply Hiff in Hc as (t' & Ht' & [H | (ru' & Hru' & H)]); congruence.
Qed.

(** X22. For a request without [Upgrade: websocket] for a registered host
    whose upstream text parses, the director that the handler installs runs
    to its end inside [proxy.ServeHTTP]: the outbound request it leaves is
    what the default director makes of the rewritten request (the one with
    the two forwarding headers), with the port-stripped host and the
    upstream URL put in its [Host] and [URL] and everything else as the
    default director left it. *)
Theorem serve_forwards (W : World) (g : Globals) (w : ResponseWriter) (r : http.Request)
    (t : string) (ru u : url.URL) :
  domain_backend g !! port_stripped (http.Host r) = Some t ->
  http.URL r = Some ru ->
  String.eqb (strings.ToLower To_LowerCase (http.Get (http.Header r) "Upgrade")) "websocket"
    = false ->
  url_Parse (upstream t ru) = Some u ->
  exists outreq,
    serve W g w r = (rewritten r, Proxied outreq) /\
    outreq = http.set_URL (Some u)
               (http.set_Host (port_stripped (http.Host r))
                  (rewriteRequestURL u (rewritten r))) /\
    http.Host outreq = port_stripped (http.Host r) /\
    http.URL outreq = Some u /\
    http.Method outreq = http.Method (rewriteRequestURL u (rewritten r)) /\
    http.Header outreq = http.Header (rewriteRequestURL u (rewritten r)) /\
    http.Body outreq = http.Body (rewriteRequestURL u (rewritten r)).
Proof.
  intros Hreg Hurl Hup Hparse. eexists.
  rewrite (serve_forward W g w r t ru Hreg Hurl Hup), Hparse.
  split; [reflexivity|]. repeat split.
Qed.

End ForwardFacts.

(** ** The further properties at concrete requests *)

Lemma hijack_failure_500_witness :
  NewWebsocketReverseProxy (lib := demoLib) (demoWorld (inl (conn 1)))
    (demo_Parse "ws://10.0.0.7:9000/chat") (mkResponseWriter None) (rewritten chat_request)
  = [Dial "tcp" "10.0.0.7:9000";
     Respond (http.Error "webserver doesn't support hijacking" 500);
     Close (conn 1)].
Proof.
  apply (proj1 (hijack_failure_500 (lib := demoLib) (demoWorld (inl (conn 1)))
                  (url.mkURL "ws" "" "10.0.0.7:9000" "/chat" "" false "")
                  (mkResponseWriter None) (rewritten chat_request) (conn 1) eq_refl)).
  reflexivity.
Defined.

Lemma tunnel_established_witness :
  exists message,
    NewWebsocketReverseProxy (lib := demoLib) (demoWorld (inl (conn 1)))
      (demo_Parse "ws://10.0.0.7:9000/chat") (mkResponseWriter (Some (inl (conn 2))))
      (rewritten chat_request)
    = [Dial "tcp" "10.0.0.7:9000"; Hijack;
       GoCopy (conn 1) [StringReader message; BodyReader ""; ConnReader (conn 2)];
       Copy (conn 2) (conn 1); Close (conn 2); Close (conn 1)].
Proof.
  eexists.
  apply (tunnel_established (lib := demoLib) (demoWorld (inl (conn 1)))
           (url.mkURL "ws" "" "10.0.0.7:9000" "/chat" "" false "")
           (mkResponseWriter (Some (inl (conn 2)))) (rewritten chat_request) chat_url
           (conn 1) (conn 2)); reflexivity.
Defined.

Lemma tunnel_closes_connections_witness :
  last (NewWebsocketReverseProxy (lib := demoLib) (demoWorld (inl (conn 1)))
          (demo_Parse "ws://10.0.0.7:9000/chat")
          (mkResponseWriter (Some (inr "connection already hijacked"))) (rewritten chat_request))
  = Some (Close (conn 1)).
Proof.
  apply (tunnel_closes_connections (lib := demoLib) (demoWorld (inl (conn 1)))
           (url.mkURL "ws" "" "10.0.0.7:9000" "/chat" "" false "")
           (mkResponseWriter (Some (inr "connection already hijacked")))
           (rewritten chat_request) (conn 1)).
  reflexivity.
Defined.

Lemma tunnel_uses_host_only_witness :
  NewWebsocketReverseProxy (lib := demoLib) refusing
    (demo_Parse "ws://10.0.0.7:9000/base/chat") (mkResponseWriter None) chat_request
  = NewWebsocketReverseProxy (lib := demoLib) refusing
      (demo_Parse "http://10.0.0.7:9000/") (mkResponseWriter None) chat_request.
Proof.
  apply (tunnel_uses_host_only (lib := demoLib) refusing
           (url.mkURL "ws" "" "10.0.0.7:9000" "/base/chat" "" false "")
           (url.mkURL "http" "" "10.0.0.7:9000" "/" "" false "")).
  reflexivity.
Defined.

Lemma replay_header_lines_witness :
  exists lines,
    replay_message (lib := demoLib) (demoWorld (inl (conn 1))) (rewritten chat_request) chat_url
    = (http.Method (rewritten chat_request) +:+ " " +:+ RequestURI (lib := demoLib) chat_url
         +:+ " " +:+ http.Proto (rewritten chat_request) +:+ LF)
      +:+ ("Host: " +:+ http.Host (rewritten chat_request) +:+ LF)
      +:+ concat_all lines +:+ LF /\
    length lines = 4%nat.
Proof.
  destruct (replay_header_lines (lib := demoLib) (demoWorld (inl (conn 1)))
              (rewritten chat_request) chat_url (reflexivity _))
    as (lines & Hmsg & _ & Hlen & _).
  exists lines. split; [exact Hmsg|]. rewrite Hlen. vm_compute. reflexivity.
Defined.

Lemma serve_backend_down_witness :
  serve (lib := demoLib) refusing demoGlobals (mkResponseWriter (Some (inl (conn 2))))
    chat_request
  = (rewritten chat_request,
     Tunnelled
       [Dial "tcp" "10.0.0.7:9000";
        Respond (http.Error "dial tcp 10.0.0.7:9000: connect: connection refused" 500)]).
Proof.
  apply (serve_backend_down (lib := demoLib) refusing demoGlobals
           (mkResponseWriter (Some (inl (conn 2)))) chat_request
           "ws://10.0.0.7:9000" chat_url
           (url.mkURL "ws" "" "10.0.0.7:9000" "/chat" "" false "room=1")
           "dial tcp 10.0.0.7:9000: connect: connection refused"
           chat_registered chat_has_url);
    vm_compute; reflexivity.
Defined.

Lemma serve_replays_rewritten_request_witness :
  exists lines : list string,
    header_line "X-Forwarded-Proto" "https" ∈ lines /\
    header_line "X-Forwarded-For" "203.0.113.9" ∈ lines /\
    header_line "Upgrade" "WebSocket" ∈ lines.
Proof.
  assert (eq_nocase (http.Get (http.Header chat_request) "Upgrade") "websocket" = true)
    as Hup by (vm_compute; reflexivity).
  assert (url_Parse (GoLib := demoLib) (upstream (lib := demoLib) "ws://10.0.0.7:9000" chat_url)
          = Some (url.mkURL "ws" "" "10.0.0.7:9000" "/chat" "" false "room=1"))
    as Hparse by (vm_compute; reflexivity).
  destruct (serve_replays_rewritten_request (lib := demoLib) (demoWorld (inl (conn 1)))
              demoGlobals (mkResponseWriter (Some (inl (conn 2)))) chat_request
              "ws://10.0.0.7:9000" chat_url
              (url.mkURL "ws" "" "10.0.0.7:9000" "/chat" "" false "room=1")
              (conn 1) (conn 2) chat_registered chat_has_url Hup Hparse
              eq_refl eq_refl (reflexivity _))
    as (lines & _ & Hproto & Hfor & Hrest).
  exists lines. split; [exact Hproto|]. split; [exact Hfor|].
  apply (Hrest "Upgrade" ["WebSocket"]); try discriminate.
  - vm_compute. reflexivity.
  - apply list_elem_of_here.
Defined.

Lemma serve_unparsable_upstream_witness :
  serve (lib := demoLib) refusing
    {| domain_backend := <["chat.site.com" := "http:"]> ∅; whitelisted := ["chat.site.com"] |}
    (mkResponseWriter None) chat_request
  = (rewritten chat_request, Tunnelled [NilPanic]).
Proof.
  apply (serve_unparsable_upstream (lib := demoLib) refusing _ (mkResponseWriter None)
           chat_request "http:" chat_url); vm_compute; reflexivity.
Defined.

Lemma serve_crashes_exactly_witness :
  ~ crashed (snd (serve (lib := demoLib) refusing demoGlobals (mkResponseWriter None)
                    chat_request)).
Proof.
  apply (proj2 (proj2 (serve_crashes_exactly (lib := demoLib) refusing demoGlobals
                         (mkResponseWriter None) chat_request))
           "ws://10.0.0.7:9000" chat_url
           (url.mkURL "ws" "" "10.0.0.7:9000" "/chat" "" false "room=1")
           chat_registered chat_has_url).
  vm_compute. reflexivity.
Defined.

Lemma serve_forwards_witness :
  exists outreq,
    serve (lib := demoLib) refusing demoGlobals (mkResponseWriter None) page_request
    = (rewritten page_request, Proxied outreq) /\
    http.Host outreq = "site.com" /\
    http.URL outreq = demo_Parse "http://localhost:8080/foo?x=1".
Proof.
  assert (String.eqb
            (strings.ToLower (To_LowerCase (GoLib := demoLib))
               (http.Get (http.Header page_request) "Upgrade")) "websocket" = false) as Hup
    by (vm_compute; reflexivity).
  assert (url_Parse (GoLib := demoLib) (upstream (lib := demoLib) "http://localhost:8080" page_url)
          = Some (url.mkURL "http" "" "localhost:8080" "/foo" "" false "x=1")) as Hparse
    by (vm_compute; reflexivity).
  destruct (serve_forwards (lib := demoLib) refusing demoGlobals (mkResponseWriter None)
              page_request "http://localhost:8080" page_url _
              page_registered page_has_url Hup Hparse)
    as (outreq & Hserve & _ & Hhost & Hu & _).
  exists outreq. split; [exact Hserve|]. split; [exact Hhost | exact Hu].
Defined.
